(** * pix2pix generators: the layer graphs built by [make_generator_ae] and
      [UNETGenerator] (pix2pix/networks/generator.py)

    The two Python functions only wire Keras layers together.  The embedding
    keeps that: a layer is a configuration value, a symbolic tensor is the
    term recording which layer was called on which tensors, and each Python
    function becomes the Rocq function that builds the same term.  Shape
    inference over the terms follows the output-shape rules of the Keras
    layers that the source calls. *)

From Stdlib Require Import ZArith QArith List String Bool Lia.
Import ListNotations.
Local Open Scope string_scope.
Local Open Scope list_scope.
Local Open Scope Z_scope.
#[local] Set Warnings "-register-all".

(** ** Layers and symbolic tensors *)

Module Keras.

(** [padding='same'] and the other Keras padding mode. *)
Inductive padding_mode := same | valid.

(** What the source hands to [Activation(...)]: the names ['relu'] and
    ['tanh'], and the callable [LeakyReLU(alpha=...)]. *)
Inductive activation := relu | tanh | leaky_relu (alpha : Q).

(** The layer constructors the source calls, with the arguments it gives
    them.  Python integers are [Z], float literals are rationals, strings
    are strings. *)
Inductive layer :=
| Conv2D (filters : Z) (kernel_size : Z * Z) (padding : padding_mode)
         (strides : Z * Z)
| BatchNormalization (name : option string) (axis : Z)
| Activation (a : activation)
| LeakyReLU (alpha : Q)
| Dropout (rate : Q)
| UpSampling2D (size : Z * Z)
| Concatenate (axis : Z).

(** Keras defaults for the arguments the source leaves out. *)
Definition default_strides : Z * Z := (1, 1).
Definition default_bn_axis : Z := -1.

(** A symbolic tensor: an [Input] placeholder, or the result of calling a
    layer on a list of tensors ([layer(x)] is a call on a one-element
    list, [Concatenate(...)([a, b])] a call on [[a; b]]). *)
Inductive tensor :=
| Input (shape : Z * Z * Z) (name : string)
| Call (l : layer) (args : list tensor).

(** [Model(input=..., output=..., name=...)]. *)
Record Model := {
  model_input : list tensor;
  model_output : list tensor;
  model_name : string
}.

End Keras.
Import Keras.

(** [l @ x] is the Python call [l(x)] on one tensor. *)
Definition call1 (l : layer) (x : tensor) : tensor := Call l [x].
Notation "l @ x" := (call1 l x) (at level 65, right associativity).

(** ** make_generator_ae *)

Module AE.

(** The two [filter_sizes] lists of the source. *)
Definition encoder_filter_sizes : list Z :=
  [64; 128; 256; 512; 512; 512; 512; 512].
Definition decoder_filter_sizes : list Z :=
  [512; 512; 512; 512; 512; 256; 128; 64].

(** Body of the encoder loop: one iteration for one [filter_size]. *)
Definition encoder_block (stride filter_size : Z) (encoder : tensor)
  : tensor :=
  let encoder :=
    Conv2D filter_size (4, 4) same (stride, stride) @ encoder in
  (* paper skips batch norm for first layer *)
  let encoder :=
    if negb (filter_size =? 64)
    then BatchNormalization None default_bn_axis @ encoder
    else encoder in
  Activation (leaky_relu 0.2%Q) @ encoder.

(** Body of the decoder loop. *)
Definition decoder_block (filter_size : Z) (decoder : tensor) : tensor :=
  let decoder := UpSampling2D (2, 2) @ decoder in
  let decoder := Conv2D filter_size (4, 4) same default_strides @ decoder in
  let decoder := BatchNormalization None default_bn_axis @ decoder in
  let decoder := Dropout 0.5%Q @ decoder in
  Activation relu @ decoder.

(** A Python [for] loop that threads one variable through its body. *)
Definition for_each {A} (body : A -> tensor -> tensor) (xs : list A)
  (init : tensor) : tensor :=
  fold_left (fun acc x => body x acc) xs init.

Definition make_generator_ae (input_layer : tensor) (num_output_filters : Z)
  : tensor :=
  (* ENCODER *)
  let stride := 2 in
  let filter_sizes := encoder_filter_sizes in
  let encoder := input_layer in
  let encoder := for_each (encoder_block stride) filter_sizes encoder in
  (* DECODER *)
  let stride := 2 in
  let filter_sizes := decoder_filter_sizes in
  let decoder := encoder in
  let decoder := for_each decoder_block filter_sizes decoder in
  let decoder :=
    Conv2D num_output_filters (4, 4) same default_strides @ decoder in
  let generator := Activation tanh @ decoder in
  generator.

(** The value of [encoder] after the first loop, and of [decoder] after
    the second loop given that [encoder]. *)
Definition encoder_of (input_layer : tensor) : tensor :=
  for_each (encoder_block 2) encoder_filter_sizes input_layer.
Definition decoder_of (encoder : tensor) : tensor :=
  for_each decoder_block decoder_filter_sizes encoder.

End AE.

(** ** UNETGenerator *)

Module UNET.

(** The local variables of [UNETGenerator] at its [return]: each [en_i] and
    [de_i] holds the output of its stage. *)
Record locals := {
  input_layer : tensor;
  en_1 : tensor; en_2 : tensor; en_3 : tensor; en_4 : tensor;
  en_5 : tensor; en_6 : tensor; en_7 : tensor; en_8 : tensor;
  de_1 : tensor; de_2 : tensor; de_3 : tensor; de_4 : tensor;
  de_5 : tensor; de_6 : tensor; de_7 : tensor; de_8 : tensor;
  unet_generator : Model
}.

(** The body of the function, statement by statement. *)
Definition body (input_img_dim : Z * Z * Z) (num_output_channels : Z)
  : locals :=
  let stride := 2 in
  let merge_mode := "concat" in
  (* batch norm merge axis *)
  let bn_axis := 1 in
  let input_layer := Input input_img_dim "unet_input" in
  (* 1 encoder *)
  let en_1 := Conv2D 64 (4, 4) same (stride, stride) @ input_layer in
  let en_1 := LeakyReLU 0.2%Q @ en_1 in
  (* 2 encoder *)
  let en_2 := Conv2D 128 (4, 4) same (stride, stride) @ en_1 in
  let en_2 := BatchNormalization (Some "gen_en_bn_2") bn_axis @ en_2 in
  let en_2 := LeakyReLU 0.2%Q @ en_2 in
  (* 3 encoder *)
  let en_3 := Conv2D 256 (4, 4) same (stride, stride) @ en_2 in
  let en_3 := BatchNormalization (Some "gen_en_bn_3") bn_axis @ en_3 in
  let en_3 := LeakyReLU 0.2%Q @ en_3 in
  (* 4 encoder *)
  let en_4 := Conv2D 512 (4, 4) same (stride, stride) @ en_3 in
  let en_4 := BatchNormalization (Some "gen_en_bn_4") bn_axis @ en_4 in
  let en_4 := LeakyReLU 0.2%Q @ en_4 in
  (* 5 encoder *)
  let en_5 := Conv2D 1024 (4, 4) same (stride, stride) @ en_4 in
  let en_5 := BatchNormalization (Some "gen_en_bn_5") bn_axis @ en_5 in
  let en_5 := LeakyReLU 0.2%Q @ en_5 in
  (* 6 encoder *)
  let en_6 := Conv2D 512 (4, 4) same (stride, stride) @ en_5 in
  let en_6 := BatchNormalization (Some "gen_en_bn_6") bn_axis @ en_6 in
  let en_6 := LeakyReLU 0.2%Q @ en_6 in
  (* 7 encoder *)
  let en_7 := Conv2D 512 (4, 4) same (stride, stride) @ en_6 in
  let en_7 := BatchNormalization (Some "gen_en_bn_7") bn_axis @ en_7 in
  let en_7 := LeakyReLU 0.2%Q @ en_7 in
  (* 8 encoder *)
  let en_8 := Conv2D 512 (4, 4) same (stride, stride) @ en_7 in
  let en_8 := BatchNormalization (Some "gen_en_bn_8") bn_axis @ en_8 in
  let en_8 := LeakyReLU 0.2%Q @ en_8 in
  (* 1 decoder *)
  let de_1 := UpSampling2D (2, 2) @ en_8 in
  let de_1 := Conv2D 512 (4, 4) same default_strides @ de_1 in
  let de_1 := BatchNormalization (Some "gen_de_bn_1") bn_axis @ de_1 in
  let de_1 := Dropout 0.5%Q @ de_1 in
  let de_1 := Call (Concatenate 1) [de_1; en_7] in
  let de_1 := Activation relu @ de_1 in
  (* 2 decoder *)
  let de_2 := UpSampling2D (2, 2) @ de_1 in
  let de_2 := Conv2D 512 (4, 4) same default_strides @ de_2 in
  let de_2 := BatchNormalization (Some "gen_de_bn_2") bn_axis @ de_2 in
  let de_2 := Dropout 0.5%Q @ de_2 in
  let de_2 := Call (Concatenate 1) [de_2; en_6] in
  let de_2 := Activation relu @ de_2 in
  (* 3 decoder *)
  let de_3 := UpSampling2D (2, 2) @ de_2 in
  let de_3 := Conv2D 1024 (4, 4) same default_strides @ de_3 in
  let de_3 := BatchNormalization (Some "gen_de_bn_3") bn_axis @ de_3 in
  let de_3 := Dropout 0.5%Q @ de_3 in
  let de_3 := Call (Concatenate 1) [de_3; en_5] in
  let de_3 := Activation relu @ de_3 in
  (* 4 decoder *)
  let de_4 := UpSampling2D (2, 2) @ de_3 in
  let de_4 := Conv2D 512 (4, 4) same default_strides @ de_4 in
  let de_4 := BatchNormalization (Some "gen_de_bn_4") bn_axis @ de_4 in
  let de_4 := Dropout 0.5%Q @ de_4 in
  let de_4 := Call (Concatenate 1) [de_4; en_4] in
  let de_4 := Activation relu @ de_4 in
  (* 5 decoder *)
  let de_5 := UpSampling2D (2, 2) @ de_4 in
  let de_5 := Conv2D 256 (4, 4) same default_strides @ de_5 in
  let de_5 := BatchNormalization (Some "gen_de_bn_5") bn_axis @ de_5 in
  let de_5 := Dropout 0.5%Q @ de_5 in
  let de_5 := Call (Concatenate 1) [de_5; en_3] in
  let de_5 := Activation relu @ de_5 in
  (* 6 decoder *)
  let de_6 := UpSampling2D (2, 2) @ de_5 in
  let de_6 := Conv2D 128 (4, 4) same default_strides @ de_6 in
  let de_6 := BatchNormalization (Some "gen_de_bn_6") bn_axis @ de_6 in
  let de_6 := Dropout 0.5%Q @ de_6 in
  let de_6 := Call (Concatenate 1) [de_6; en_2] in
  let de_6 := Activation relu @ de_6 in
  (* 7 decoder *)
  let de_7 := UpSampling2D (2, 2) @ de_6 in
  let de_7 := Conv2D 64 (4, 4) same default_strides @ de_7 in
  let de_7 := BatchNormalization (Some "gen_de_bn_7") bn_axis @ de_7 in
  let de_7 := Dropout 0.5%Q @ de_7 in
  let de_7 := Call (Concatenate 1) [de_7; en_1] in
  let de_7 := Activation relu @ de_7 in
  (* last stage *)
  let de_8 := UpSampling2D (2, 2) @ de_7 in
  let de_8 :=
    Conv2D num_output_channels (4, 4) same default_strides @ de_8 in
  let de_8 := Activation tanh @ de_8 in
  let unet_generator :=
    Build_Model [input_layer] [de_8] "unet_generator" in
  Build_locals input_layer
    en_1 en_2 en_3 en_4 en_5 en_6 en_7 en_8
    de_1 de_2 de_3 de_4 de_5 de_6 de_7 de_8
    unet_generator.

Definition UNETGenerator (input_img_dim : Z * Z * Z)
  (num_output_channels : Z) : Model :=
  unet_generator (body input_img_dim num_output_channels).

(** The stage outputs in stage order: position [i - 1] holds stage [i]. *)
Definition encoder_stages (L : locals) : list tensor :=
  [en_1 L; en_2 L; en_3 L; en_4 L; en_5 L; en_6 L; en_7 L; en_8 L].
Definition decoder_stages (L : locals) : list tensor :=
  [de_1 L; de_2 L; de_3 L; de_4 L; de_5 L; de_6 L; de_7 L; de_8 L].

End UNET.

(** ** Reading a graph back *)

(** One step on the main path of a graph: the layer that was called, and the
    tensors it was called with besides the one flowing along the path (none
    for [layer(x)], the skip input for [Concatenate(...)([x, skip])]). *)
Definition step : Type := layer * list tensor.

(** The main path of a tensor, from its input to the tensor itself: the
    successive calls through first arguments. *)
Fixpoint path (t : tensor) : list step :=
  match t with
  | Input _ _ => []
  | Call l [] => [(l, [])]
  | Call l (x :: others) => path x ++ [(l, others)]
  end.

(** The steps that lead from [prev] to [cur] when [cur] was built on top of
    [prev]: what the code between the two assignments added. *)
Definition added (prev cur : tensor) : list step :=
  skipn (List.length (path prev)) (path cur).

Definition layers (steps : list step) : list layer := map fst steps.

(** Stage [i] (counted from 1, as the source counts) in a list of stages. *)
Definition stage {A} (stages : list A) (i : nat) : option A :=
  match i with
  | O => None
  | S j => nth_error stages j
  end.

(** Layer observers. *)
Definition is_conv (l : layer) : bool :=
  match l with Conv2D _ _ _ _ => true | _ => false end.
Definition is_norm (l : layer) : bool :=
  match l with BatchNormalization _ _ => true | _ => false end.
Definition is_upsample (l : layer) : bool :=
  match l with UpSampling2D _ => true | _ => false end.
Definition is_concat (l : layer) : bool :=
  match l with Concatenate _ => true | _ => false end.

(** The activation function a layer applies, if it is an activation layer:
    [Activation(f)] applies [f], and the [LeakyReLU(alpha)] layer applies the
    leaky rectifier. *)
Definition activation_of (l : layer) : option activation :=
  match l with
  | Activation a => Some a
  | LeakyReLU alpha => Some (leaky_relu alpha)
  | _ => None
  end.

(** ** Shapes *)

(** Keras' [image_data_format]: which axis of an image tensor holds the
    channels.  The docstring of [UNETGenerator] gives [input_img_dim] as
    (channel, height, width), that is [channels_first]. *)
Inductive data_format := channels_first | channels_last.

(** The shape of one sample: axes 1, 2 and 3 (axis 0 is the batch). *)
Definition shape : Type := Z * Z * Z.

Definition channels (df : data_format) (s : shape) : Z :=
  match df, s with
  | channels_first, (c, _, _) => c
  | channels_last, (_, _, c) => c
  end.
Definition height (df : data_format) (s : shape) : Z :=
  match df, s with
  | channels_first, (_, h, _) => h
  | channels_last, (h, _, _) => h
  end.
Definition width (df : data_format) (s : shape) : Z :=
  match df, s with
  | channels_first, (_, _, w) => w
  | channels_last, (_, w, _) => w
  end.
Definition mk_shape (df : data_format) (c h w : Z) : shape :=
  match df with
  | channels_first => (c, h, w)
  | channels_last => (h, w, c)
  end.

(** The axis number of the channels. *)
Definition channel_axis (df : data_format) : Z :=
  match df with channels_first => 1 | channels_last => 3 end.

(** Shape inference fails where Keras raises. *)
Definition bind {A B} (m : option A) (f : A -> option B) : option B :=
  match m with Some a => f a | None => None end.
Notation "x <- m ;; k" := (bind m (fun x => k))
  (at level 61, m at next level, right associativity).

Fixpoint all_some {A} (ms : list (option A)) : option (list A) :=
  match ms with
  | [] => Some []
  | m :: rest => a <- m ;; r <- all_some rest ;; Some (a :: r)
  end.

(** Output length of a convolution along one axis (dilation 1): the input
    length for ['same'], shortened by the kernel for ['valid'], then divided
    by the stride, rounding up. *)
Definition conv_output_length (input_length filter_size : Z)
  (padding : padding_mode) (stride : Z) : Z :=
  let output_length :=
    match padding with
    | same => input_length
    | valid => input_length - filter_size + 1
    end in
  (output_length + stride - 1) / stride.

(** Concatenation of two sample shapes along [axis]: the other axes must
    agree, the lengths along [axis] add up. *)
Definition concat_shapes (axis : Z) (a b : shape) : option shape :=
  let '(a1, a2, a3) := a in
  let '(b1, b2, b3) := b in
  let axis := if axis <? 0 then axis + 4 else axis in
  if axis =? 1 then
    if (a2 =? b2) && (a3 =? b3) then Some (a1 + b1, a2, a3) else None
  else if axis =? 2 then
    if (a1 =? b1) && (a3 =? b3) then Some (a1, a2 + b2, a3) else None
  else if axis =? 3 then
    if (a1 =? b1) && (a2 =? b2) then Some (a1, a2, a3 + b3) else None
  else None.

(** A convolution creates a kernel of shape (rows, columns, input
    channels, filters); Keras raises when one of these is not positive. *)
Definition conv_kernel_ok (f kh kw input_channels : Z) : bool :=
  (0 <? kh) && (0 <? kw) && (0 <? input_channels) && (0 <? f).

Definition layer_output_shape (df : data_format) (l : layer)
  (ins : list shape) : option shape :=
  match l, ins with
  | Conv2D f (kh, kw) p (sh, sw), [s] =>
      if conv_kernel_ok f kh kw (channels df s)
      then Some (mk_shape df f
                   (conv_output_length (height df s) kh p sh)
                   (conv_output_length (width df s) kw p sw))
      else None
  | UpSampling2D (a, b), [s] =>
      Some (mk_shape df (channels df s) (a * height df s) (b * width df s))
  | BatchNormalization _ _, [s] => Some s
  | Activation _, [s] => Some s
  | LeakyReLU _, [s] => Some s
  | Dropout _, [s] => Some s
  | Concatenate axis, a :: b :: rest =>
      fold_left (fun acc s => x <- acc ;; concat_shapes axis x s)
                (b :: rest) (Some a)
  | _, _ => None
  end.

Fixpoint shape_of (df : data_format) (t : tensor) : option shape :=
  match t with
  | Input s _ => Some s
  | Call l args =>
      ins <- all_some (map (shape_of df) args) ;;
      layer_output_shape df l ins
  end.


(** ** Stages *)

(** The successive values of a loop variable: element [i - 1] is its value
    after iteration [i]. *)
Fixpoint scan {A} (body : A -> tensor -> tensor) (xs : list A)
  (init : tensor) : list tensor :=
  match xs with
  | [] => []
  | x :: rest => let t := body x init in t :: scan body rest t
  end.

(** The steps of each stage, given the tensor the first stage starts from
    and the outputs of the stages in order. *)
Fixpoint stage_steps (prev : tensor) (stages : list tensor)
  : list (list step) :=
  match stages with
  | [] => []
  | t :: rest => added prev t :: stage_steps t rest
  end.

Module AEStages.
Import AE.

(** Outputs of the 8 encoder blocks and of the 8 decoder blocks. *)
Definition encoder_stages (input_layer : tensor) : list tensor :=
  scan (encoder_block 2) encoder_filter_sizes input_layer.
Definition decoder_stages (input_layer : tensor) : list tensor :=
  scan decoder_block decoder_filter_sizes (encoder_of input_layer).

Definition encoder_steps (input_layer : tensor) : list (list step) :=
  stage_steps input_layer (encoder_stages input_layer).
Definition decoder_steps (input_layer : tensor) : list (list step) :=
  stage_steps (encoder_of input_layer) (decoder_stages input_layer).
End AEStages.

Module UNETStages.
Import UNET.

Definition encoder_steps (L : locals) : list (list step) :=
  stage_steps (input_layer L) (encoder_stages L).
Definition decoder_steps (L : locals) : list (list step) :=
  stage_steps (en_8 L) (decoder_stages L).
End UNETStages.

(** The skip tensor of a stage that ends in a concatenation followed by an
    activation, and nothing otherwise. *)
Definition skip_before_activation (steps : list step) : option tensor :=
  match rev steps with
  | (act, []) :: (Concatenate _, [skip]) :: _ =>
      match activation_of act with
      | Some _ => Some skip
      | None => None
      end
  | _ => None
  end.

(** A block made of a strided convolution, then a normalization, then an
    activation. *)
Definition conv_norm_act (ls : list layer) : bool :=
  match ls with
  | [Conv2D _ _ _ (sh, sw); BatchNormalization _ _; a] =>
      (1 <? sh) && (1 <? sw) &&
      match activation_of a with Some _ => true | None => false end
  | _ => false
  end.

(** The steps one encoder iteration and one decoder iteration add. *)
Definition encoder_block_steps (stride filter_size : Z) : list step :=
  (Conv2D filter_size (4, 4) same (stride, stride), [])
  :: (if negb (filter_size =? 64)
      then [(BatchNormalization None default_bn_axis, [])] else [])
  ++ [(Activation (leaky_relu 0.2), [])].

Definition decoder_block_steps (filter_size : Z) : list step :=
  [(UpSampling2D (2, 2), []);
   (Conv2D filter_size (4, 4) same default_strides, []);
   (BatchNormalization None default_bn_axis, []);
   (Dropout 0.5, []);
   (Activation relu, [])].

Definition sample_input : tensor := Input (3, 256, 256) "input".

(** ** Comparing the two generators stage by stage *)

(** What a layer is, without its name, its normalization axis or its
    convolution parameters (those are compared separately). *)
Inductive layer_kind :=
| convolution
| normalization
| activation_with (a : activation)
| dropout_with (rate : Q)
| upsampling (size : Z * Z)
| concatenation.

Definition kind_of (l : layer) : layer_kind :=
  match l with
  | Conv2D _ _ _ _ => convolution
  | BatchNormalization _ _ => normalization
  | Activation a => activation_with a
  | LeakyReLU alpha => activation_with (leaky_relu alpha)
  | Dropout rate => dropout_with rate
  | UpSampling2D size => upsampling size
  | Concatenate _ => concatenation
  end.

Definition is_concatenation (k : layer_kind) : bool :=
  match k with concatenation => true | _ => false end.

(** The layer composition of a stage, and the same with the concatenations
    left out. *)
Definition composition (s : list step) : list layer_kind :=
  map kind_of (layers s).
Definition without_concatenation (ks : list layer_kind) : list layer_kind :=
  filter (fun k => negb (is_concatenation k)) ks.

(** Filter counts of the convolutions of a stage, and their kernel size,
    padding and stride. *)
Definition conv_filters (s : list step) : list Z :=
  flat_map (fun l => match l with Conv2D f _ _ _ => [f] | _ => [] end)
           (layers s).
Definition conv_geometry (s : list step)
  : list ((Z * Z) * padding_mode * (Z * Z)) :=
  flat_map (fun l => match l with
                     | Conv2D _ k p st => [(k, p, st)]
                     | _ => []
                     end)
           (layers s).

(** Two stages of the same shape: same filter count, kernel size, padding
    and stride, and the same layers in the same order once the second
    stage's concatenation is set aside. *)
Definition same_stage (ae unet : list step) : Prop :=
  conv_filters ae = conv_filters unet
  /\ conv_geometry ae = conv_geometry unet
  /\ composition ae = without_concatenation (composition unet).

(** ** Filter counts of the encoders *)

Definition stage_filters (steps : list (list step)) : list Z :=
  flat_map conv_filters steps.

Fixpoint nondecreasing (l : list Z) : bool :=
  match l with
  | a :: (b :: _) as rest => (a <=? b) && nondecreasing rest
  | _ => true
  end.

(** ** Spatial resolution along the stages *)

(** A stage that halves, and one that doubles, the height and the width. *)
Definition halves (df : data_format) (s_in s_out : shape) : Prop :=
  2 * height df s_out = height df s_in /\ 2 * width df s_out = width df s_in.
Definition doubles (df : data_format) (s_in s_out : shape) : Prop :=
  height df s_out = 2 * height df s_in /\ width df s_out = 2 * width df s_in.

(** [chain R s outs]: every stage output has a shape, and [R] relates the
    shape each stage receives to the shape it produces, starting from [s]. *)
Fixpoint chain (R : shape -> shape -> Prop) (s : shape)
  (outs : list (option shape)) : Prop :=
  match outs with
  | [] => True
  | Some s' :: rest => R s s' /\ chain R s' rest
  | None :: _ => False
  end.

(** [dbl n k] is [k] doubled [n] times. *)
Definition dbl (n : nat) (k : Z) : Z := Nat.iter n (Z.mul 2) k.

(** The round trip in [make_generator_ae] on an input of shape [s].  The
    generator is its 8 encoder stages, then its 8 decoder stages, which
    start from the last encoder stage, then a convolution and tanh on the
    last decoder stage.  Each encoder stage halves height and width, each
    decoder stage doubles them, and the output of the generator has the
    height and width of the input. *)
Definition AE_round_trip (df : data_format) (x : tensor) (s : shape)
  (num_output_filters : Z) : Prop :=
  let enc := AEStages.encoder_stages x in
  let dec := AEStages.decoder_stages x in
  let out := AE.make_generator_ae x num_output_filters in
  (List.length enc = 8%nat /\ List.length dec = 8%nat)
  /\ (AE.encoder_of x = last enc x
      /\ dec = scan AE.decoder_block AE.decoder_filter_sizes (last enc x)
      /\ out = Activation tanh
               @ Conv2D num_output_filters (4, 4) same default_strides
               @ last dec (last enc x)
      /\ added x out
         = List.concat (AEStages.encoder_steps x)
           ++ List.concat (AEStages.decoder_steps x)
           ++ [(Conv2D num_output_filters (4, 4) same default_strides, []);
               (Activation tanh, [])])
  /\ exists s_enc s_dec s_out,
      shape_of df (last enc x) = Some s_enc
      /\ chain (halves df) s (map (shape_of df) enc)
      /\ chain (doubles df) s_enc (map (shape_of df) dec)
      /\ shape_of df (last dec (last enc x)) = Some s_dec
      /\ height df s_dec = height df s /\ width df s_dec = width df s
      /\ shape_of df out = Some s_out
      /\ height df s_out = height df s
      /\ width df s_out = width df s.

(** The same for the model [UNETGenerator] returns, channels first: the
    model's output is built from its input by the 8 encoder stages and
    then the 8 decoder stages. *)
Definition UNET_round_trip (c h w num_output_channels : Z) : Prop :=
  let L := UNET.body (c, h, w) num_output_channels in
  let M := UNET.UNETGenerator (c, h, w) num_output_channels in
  let enc := UNET.encoder_stages L in
  let dec := UNET.decoder_stages L in
  (List.length enc = 8%nat /\ List.length dec = 8%nat)
  /\ (model_input M = [UNET.input_layer L]
      /\ model_output M = [last dec (UNET.input_layer L)]
      /\ path (last dec (UNET.input_layer L))
         = List.concat (UNETStages.encoder_steps L)
           ++ List.concat
                (stage_steps (last enc (UNET.input_layer L)) dec))
  /\ exists s_enc s_out,
      shape_of channels_first (UNET.input_layer L) = Some (c, h, w)
      /\ shape_of channels_first (last enc (UNET.input_layer L))
         = Some s_enc
      /\ chain (halves channels_first) (c, h, w)
           (map (shape_of channels_first) enc)
      /\ chain (doubles channels_first) s_enc
           (map (shape_of channels_first) dec)
      /\ shape_of channels_first (last dec (UNET.input_layer L))
         = Some s_out
      /\ height channels_first s_out = h
      /\ width channels_first s_out = w.

(** Decoder stage [i] of [UNETGenerator] has one convolution, with [f]
    filters, and concatenates along the channel axis with encoder stage
    [8 - i]; whenever the stage's output has a shape, so has that encoder
    stage, and the output has [f] channels more than it. *)
Definition UNET_skip_channels (c h w num_output_channels : Z) (i : nat)
  : Prop :=
  let L := UNET.body (c, h, w) num_output_channels in
  exists steps d e f,
    stage (UNETStages.decoder_steps L) i = Some steps
    /\ stage (UNET.decoder_stages L) i = Some d
    /\ stage (UNET.encoder_stages L) (8 - i) = Some e
    /\ conv_filters steps = [f]
    /\ In (Concatenate (channel_axis channels_first), [e]) steps
    /\ forall sd,
        shape_of channels_first d = Some sd ->
        exists se,
          shape_of channels_first e = Some se
          /\ channels channels_first sd = f + channels channels_first se.

(** Decoder stage [i] of [UNETGenerator] has a shape. *)
Definition UNET_stage_built (c h w num_output_channels : Z) (i : nat)
  : Prop :=
  let L := UNET.body (c, h, w) num_output_channels in
  exists d sd,
    stage (UNET.decoder_stages L) i = Some d
    /\ shape_of channels_first d = Some sd.

(** ** Convolution settings *)

(** A convolution with kernel size [k] and padding [p]; any layer that is
    no convolution. *)
Definition conv_uses (k : Z * Z) (p : padding_mode) (l : layer) : Prop :=
  match l with
  | Conv2D _ k' p' _ => k' = k /\ p' = p
  | _ => True
  end.

(** A convolution with strides [st]; any layer that is no convolution. *)
Definition conv_stride (st : Z * Z) (l : layer) : Prop :=
  match l with
  | Conv2D _ _ _ st' => st' = st
  | _ => True
  end.

(** A step that leaves height and width as they are, whatever it is called
    on. *)
Definition keeps_size (df : data_format) (st : step) : Prop :=
  forall (s_in : shape) (others : list shape) (s_out : shape),
    layer_output_shape df (fst st) (s_in :: others) = Some s_out ->
    height df s_out = height df s_in /\ width df s_out = width df s_in.

(** A decoder step either is the 2x upsampling or keeps the size. *)
Definition upsampling_or_keeps_size (df : data_format) (st : step) : Prop :=
  fst st = UpSampling2D (2, 2) \/ keeps_size df st.

Definition count (p : layer -> bool) (steps : list step) : nat :=
  List.length (filter p (layers steps)).


(** ** Further observers *)

(** Division rounding up, the length after a ['same'] convolution of stride
    [d]. *)
Definition ceil_div (n d : Z) : Z := (n + d - 1) / d.

(** The [Input] placeholders a tensor is computed from, one entry per use. *)
Fixpoint leaves (t : tensor) : list tensor :=
  match t with
  | Input _ _ => [t]
  | Call _ args => flat_map leaves args
  end.

(** The explicit names and the axes of the normalization layers, and the
    activation functions, along a list of steps. *)
Definition bn_names (steps : list step) : list string :=
  flat_map (fun l => match l with
                     | BatchNormalization (Some name) _ => [name]
                     | _ => []
                     end) (layers steps).
Definition bn_axes (steps : list step) : list Z :=
  flat_map (fun l => match l with
                     | BatchNormalization _ axis => [axis]
                     | _ => []
                     end) (layers steps).

(** The axis a Keras axis number denotes on a batch of images: negative
    numbers count from the last of the 4 axes. *)
Definition normalize_axis (axis : Z) : Z :=
  if axis <? 0 then axis + 4 else axis.

(** * Proofs *)

(** ** Basic facts on paths *)

Section Paths.

Lemma path_call1 (l : layer) (t : tensor) :
  path (l @ t) = path t ++ [(l, [])].
Proof. reflexivity. Qed.

Lemma path_call_skip (l : layer) (t u : tensor) :
  path (Call l [t; u]) = path t ++ [(l, [u])].
Proof. reflexivity. Qed.

Lemma added_ext (prev cur : tensor) (s : list step) :
  path cur = path prev ++ s -> added prev cur = s.
Proof.
  intros E. unfold added. rewrite E. clear E.
  generalize (path prev) as ps.
  induction ps as [|p ps IH]; [reflexivity | exact IH].
Qed.

(** A loop whose body extends the path by [steps x] extends it by the
    steps of all its iterations. *)
Lemma path_for_each {A} (body : A -> tensor -> tensor)
  (steps : A -> list step)
  (Hbody : forall x t, path (body x t) = path t ++ steps x)
  (xs : list A) (init : tensor) :
  path (AE.for_each body xs init) = path init ++ flat_map steps xs.
Proof.
  unfold AE.for_each. revert init.
  induction xs as [|x xs IH]; intros init; simpl.
  - now rewrite app_nil_r.
  - rewrite IH, Hbody, <- app_assoc. reflexivity.
Qed.

Lemma last_cons_default {A} (a : A) (l : list A) (d d' : A) :
  last (a :: l) d = last (a :: l) d'.
Proof.
  revert a. induction l as [|b l IH]; intros a; [reflexivity|].
  change (last (b :: l) d = last (b :: l) d'). apply IH.
Qed.

(** The loop variable after the loop is the last of its successive
    values. *)
Lemma for_each_last {A} (body : A -> tensor -> tensor) (xs : list A)
  (init : tensor) :
  AE.for_each body xs init = last (scan body xs init) init.
Proof.
  unfold AE.for_each. revert init.
  induction xs as [|x xs IH]; intros init; [reflexivity|].
  simpl fold_left. rewrite IH.
  destruct xs as [|y ys]; [reflexivity|].
  change (last (scan body (y :: ys) (body x init)) (body x init)
          = last (scan body (y :: ys) (body x init)) init).
  apply last_cons_default.
Qed.

Lemma stage_steps_scan {A} (body : A -> tensor -> tensor)
  (steps : A -> list step)
  (Hbody : forall x t, path (body x t) = path t ++ steps x)
  (xs : list A) (init : tensor) :
  stage_steps init (scan body xs init) = map steps xs.
Proof.
  revert init. induction xs as [|x xs IH]; intros init; simpl; [reflexivity|].
  rewrite IH. f_equal. apply added_ext, Hbody.
Qed.

End Paths.

Lemma path_encoder_block (stride f : Z) (t : tensor) :
  path (AE.encoder_block stride f t) = path t ++ encoder_block_steps stride f.
Proof.
  unfold AE.encoder_block, encoder_block_steps.
  destruct (negb (f =? 64)); rewrite ?path_call1, <- ?app_assoc; reflexivity.
Qed.

Lemma path_decoder_block (f : Z) (t : tensor) :
  path (AE.decoder_block f t) = path t ++ decoder_block_steps f.
Proof.
  unfold AE.decoder_block, decoder_block_steps.
  rewrite !path_call1, <- !app_assoc. reflexivity.
Qed.

(** [make_generator_ae] in terms of the two loop results. *)
Lemma make_generator_ae_eq (x : tensor) (n : Z) :
  AE.make_generator_ae x n
  = Activation tanh @ Conv2D n (4, 4) same default_strides
    @ AE.decoder_of (AE.encoder_of x).
Proof. reflexivity. Qed.

Lemma AE_encoder_steps (x : tensor) :
  AEStages.encoder_steps x = map (encoder_block_steps 2) AE.encoder_filter_sizes.
Proof. apply stage_steps_scan, path_encoder_block. Qed.

Lemma AE_decoder_steps (x : tensor) :
  AEStages.decoder_steps x = map decoder_block_steps AE.decoder_filter_sizes.
Proof. apply stage_steps_scan, path_decoder_block. Qed.

Lemma AE_encoder_last (x : tensor) :
  AE.encoder_of x = last (AEStages.encoder_stages x) x.
Proof. apply for_each_last. Qed.

Lemma AE_decoder_last (x : tensor) :
  AE.decoder_of (AE.encoder_of x)
  = last (AEStages.decoder_stages x) (AE.encoder_of x).
Proof. apply for_each_last. Qed.

Lemma AE_encoder_added (x : tensor) :
  added x (AE.encoder_of x)
  = flat_map (encoder_block_steps 2) AE.encoder_filter_sizes.
Proof.
  apply added_ext. unfold AE.encoder_of.
  apply (path_for_each _ _ (path_encoder_block 2)).
Qed.

Lemma AE_decoder_added (x : tensor) (n : Z) :
  added (AE.encoder_of x) (AE.make_generator_ae x n)
  = flat_map decoder_block_steps AE.decoder_filter_sizes
    ++ [(Conv2D n (4, 4) same default_strides, []); (Activation tanh, [])].
Proof.
  apply added_ext. rewrite make_generator_ae_eq. unfold AE.decoder_of.
  rewrite !path_call1, (path_for_each _ _ path_decoder_block).
  now rewrite <- !app_assoc.
Qed.

(** ** Structure of make_generator_ae *)

(** C2, as stated, fails: the first encoder block of [make_generator_ae]
    (the one with 64 filters) is a convolution followed directly by the
    activation, with no normalization, so not every block is
    convolution + normalization + activation. *)
Lemma C2_first_block_has_no_normalization :
  stage (AEStages.encoder_steps sample_input) 1
  = Some [(Conv2D 64 (4, 4) same (2, 2), []);
          (Activation (leaky_relu 0.2), [])]
  /\ ~ Forall (fun s => conv_norm_act (layers s) = true)
         (AEStages.encoder_steps sample_input).
Proof.
  split; [reflexivity|].
  intros H. inversion H as [|s ss H1 _]. discriminate H1.
Qed.

(** C2, amended: [make_generator_ae] has 8 encoder blocks; block [i] is a
    stride-2 4x4 convolution with the [i]-th filter count, followed by a
    normalization except in block 1 (the block with 64 filters), followed by
    the leaky activation.  So blocks 2 to 8 are convolution + normalization
    + activation, and block 1 is convolution + activation. *)
Theorem C2_encoder_blocks (x : tensor) (i : nat) (s : list step)
  (Hs : stage (AEStages.encoder_steps x) i = Some s) :
  List.length (AEStages.encoder_steps x) = 8%nat
  /\ exists f,
      stage AE.encoder_filter_sizes i = Some f
      /\ layers s
         = Conv2D f (4, 4) same (2, 2)
           :: (if (i =? 1)%nat then []
               else [BatchNormalization None default_bn_axis])
           ++ [Activation (leaky_relu 0.2)]
      /\ conv_norm_act (layers s) = negb (i =? 1)%nat
      /\ existsb is_norm (layers s) = negb (i =? 1)%nat.
Proof.
  rewrite AE_encoder_steps in *. split; [reflexivity|].
  do 9 (destruct i as [|i]; [inversion Hs; subst s; eexists; repeat split|]);
    try discriminate Hs.
  destruct i; discriminate Hs.
Qed.

Lemma C2_encoder_blocks_witness :
  let s2 := [(Conv2D 128 (4, 4) same (2, 2), []);
             (BatchNormalization None default_bn_axis, []);
             (Activation (leaky_relu 0.2), [])] in
  stage (AEStages.encoder_steps sample_input) 2 = Some s2
  /\ List.length (AEStages.encoder_steps sample_input) = 8%nat
  /\ exists f,
      stage AE.encoder_filter_sizes 2 = Some f
      /\ layers s2
         = Conv2D f (4, 4) same (2, 2)
           :: [BatchNormalization None default_bn_axis]
           ++ [Activation (leaky_relu 0.2)]
      /\ conv_norm_act (layers s2) = true
      /\ existsb is_norm (layers s2) = true.
Proof.
  split; [reflexivity|].
  exact (C2_encoder_blocks sample_input 2 _ eq_refl).
Defined.

(** C4: the decoder of [make_generator_ae] is exactly 8 blocks, each an
    upsampling, a convolution, a normalization, a dropout and an activation
    in that order, and what follows the encoder in the network is these 8
    blocks and then one convolution and a tanh activation. *)
Theorem C4_decoder_blocks (x : tensor) (num_output_filters : Z) :
  List.length (AEStages.decoder_steps x) = 8%nat
  /\ Forall (fun s => exists f,
               layers s = [UpSampling2D (2, 2);
                           Conv2D f (4, 4) same default_strides;
                           BatchNormalization None default_bn_axis;
                           Dropout 0.5;
                           Activation relu])
       (AEStages.decoder_steps x)
  /\ added (AE.encoder_of x) (AE.make_generator_ae x num_output_filters)
     = List.concat (AEStages.decoder_steps x)
       ++ [(Conv2D num_output_filters (4, 4) same default_strides, []);
           (Activation tanh, [])].
Proof.
  rewrite AE_decoder_steps. split; [reflexivity|]. split.
  - repeat constructor; eexists; reflexivity.
  - apply added_ext. rewrite make_generator_ae_eq. unfold AE.decoder_of.
    rewrite !path_call1.
    rewrite (path_for_each _ _ path_decoder_block).
    rewrite <- !app_assoc, flat_map_concat_map. reflexivity.
Qed.

(** ** Structure of UNETGenerator *)

(** C1, as stated, fails at decoder stage 8: the last stage of
    [UNETGenerator] is an upsampling, the output convolution and tanh; it
    concatenates with no tensor at all. *)
Lemma C1_last_stage_has_no_skip :
  let L := UNET.body (3, 256, 256) 3 in
  stage (UNETStages.decoder_steps L) 8
  = Some [(UpSampling2D (2, 2), []);
          (Conv2D 3 (4, 4) same default_strides, []);
          (Activation tanh, [])]
  /\ ~ exists s e,
         stage (UNETStages.decoder_steps L) 8 = Some s
         /\ skip_before_activation s = Some e.
Proof.
  split; [reflexivity|].
  intros (s & e & Hs & He). inversion Hs; subst s. discriminate He.
Qed.

(** C1, amended: each of the decoder stages 1 to 7 of [UNETGenerator]
    concatenates its output with the output of encoder stage [8 - i], and
    that concatenation is the step right before the stage's activation.
    Decoder stage 8, the output stage, has no concatenation. *)
Theorem C1_skip_connections (input_img_dim : Z * Z * Z)
  (num_output_channels : Z) (i : nat) (Hi : (1 <= i <= 7)%nat) :
  let L := UNET.body input_img_dim num_output_channels in
  (exists s e,
      stage (UNETStages.decoder_steps L) i = Some s
      /\ stage (UNET.encoder_stages L) (8 - i) = Some e
      /\ skip_before_activation s = Some e)
  /\ (exists s8,
         stage (UNETStages.decoder_steps L) 8 = Some s8
         /\ existsb is_concat (layers s8) = false).
Proof.
  intros L. split.
  - destruct Hi as [Hlo Hhi].
    do 8 (destruct i as [|i]; [try lia; do 2 eexists; repeat split|]).
    lia.
  - eexists. split; reflexivity.
Qed.

Lemma C1_skip_connections_witness :
  (1 <= 3 <= 7)%nat
  /\ let L := UNET.body (3, 256, 256) 3 in
     (exists s e,
         stage (UNETStages.decoder_steps L) 3 = Some s
         /\ stage (UNET.encoder_stages L) (8 - 3) = Some e
         /\ skip_before_activation s = Some e)
     /\ (exists s8,
            stage (UNETStages.decoder_steps L) 8 = Some s8
            /\ existsb is_concat (layers s8) = false).
Proof.
  split; [lia|].
  apply (C1_skip_connections (3, 256, 256) 3 3). lia.
Defined.

(** C3, as stated, fails on the decoder: stage 8 of [UNETGenerator] is the
    output stage (upsampling, convolution to the output channels, tanh)
    while block 8 of [make_generator_ae] is a full block with 64 filters,
    and stage 5 has 256 filters against 512. *)
Lemma C3_decoder_stages_differ :
  let L := UNET.body (3, 256, 256) 3 in
  (exists a u,
      stage (AEStages.decoder_steps sample_input) 8 = Some a
      /\ stage (UNETStages.decoder_steps L) 8 = Some u
      /\ composition a
         = [upsampling (2, 2); convolution; normalization;
            dropout_with 0.5; activation_with relu]
      /\ composition u
         = [upsampling (2, 2); convolution; activation_with tanh]
      /\ conv_filters a = [64] /\ conv_filters u = [3]
      /\ ~ same_stage a u)
  /\ (exists a u,
         stage (AEStages.decoder_steps sample_input) 5 = Some a
         /\ stage (UNETStages.decoder_steps L) 5 = Some u
         /\ conv_filters a = [512] /\ conv_filters u = [256]
         /\ ~ same_stage a u).
Proof.
  split; do 2 eexists; repeat (split; [reflexivity|]);
    intros (H & _); discriminate H.
Qed.

(** C3, amended: stage by stage, the encoder of [UNETGenerator] has the
    layer composition, kernel size, padding and stride of the encoder of
    [make_generator_ae], and the same filter count at every stage other
    than 5.  Decoder stages 1 to 7 have the composition, kernel size,
    padding and stride of the [make_generator_ae] decoder blocks, with one
    concatenation added, and the same filter count at stages 1, 2 and 4.
    Decoder stage 8 is an upsampling followed by what ends
    [make_generator_ae]: the output convolution and tanh. *)
Theorem C3_stagewise_comparison (x : tensor) (input_img_dim : Z * Z * Z)
  (num_output : Z) (i : nat) (ea eu da du : list step)
  (Hea : stage (AEStages.encoder_steps x) i = Some ea)
  (Heu : stage (UNETStages.encoder_steps
                  (UNET.body input_img_dim num_output)) i = Some eu)
  (Hda : stage (AEStages.decoder_steps x) i = Some da)
  (Hdu : stage (UNETStages.decoder_steps
                  (UNET.body input_img_dim num_output)) i = Some du) :
  (composition ea = composition eu
   /\ conv_geometry ea = conv_geometry eu
   /\ (i <> 5%nat -> conv_filters ea = conv_filters eu))
  /\ conv_geometry da = conv_geometry du
  /\ (i <> 8%nat ->
      composition da = without_concatenation (composition du)
      /\ List.length (filter is_concatenation (composition du)) = 1%nat)
  /\ (i = 1%nat \/ i = 2%nat \/ i = 4%nat ->
      conv_filters da = conv_filters du)
  /\ (i = 8%nat ->
      du = (UpSampling2D (2, 2), [])
           :: added (AE.decoder_of (AE.encoder_of x))
                (AE.make_generator_ae x num_output)).
Proof.
  assert (Htail : added (AE.decoder_of (AE.encoder_of x))
                    (AE.make_generator_ae x num_output)
                  = [(Conv2D num_output (4, 4) same default_strides, []);
                     (Activation tanh, [])])
    by (apply added_ext; rewrite make_generator_ae_eq;
        rewrite !path_call1, <- !app_assoc; reflexivity).
  rewrite Htail. clear Htail.
  rewrite AE_encoder_steps in Hea. rewrite AE_decoder_steps in Hda.
  do 9 (destruct i as [|i];
        [try discriminate Hea;
         inversion Hea; inversion Heu; inversion Hda; inversion Hdu;
         subst ea eu da du;
         repeat split; try reflexivity; intros; try reflexivity;
         try lia; try (exfalso; lia)|]).
  destruct i; discriminate Hea.
Qed.

Lemma C3_stagewise_comparison_witness :
  let L := UNET.body (3, 256, 256) 3 in
  let ea := [(Conv2D 128 (4, 4) same (2, 2), []);
             (BatchNormalization None default_bn_axis, []);
             (Activation (leaky_relu 0.2), [])] in
  let eu := [(Conv2D 128 (4, 4) same (2, 2), []);
             (BatchNormalization (Some "gen_en_bn_2") 1, []);
             (LeakyReLU 0.2, [])] in
  let da := [(UpSampling2D (2, 2), []);
             (Conv2D 512 (4, 4) same default_strides, []);
             (BatchNormalization None default_bn_axis, []);
             (Dropout 0.5, []);
             (Activation relu, [])] in
  let du := [(UpSampling2D (2, 2), []);
             (Conv2D 512 (4, 4) same default_strides, []);
             (BatchNormalization (Some "gen_de_bn_2") 1, []);
             (Dropout 0.5, []);
             (Concatenate 1, [UNET.en_6 L]);
             (Activation relu, [])] in
  stage (AEStages.encoder_steps sample_input) 2 = Some ea
  /\ stage (UNETStages.encoder_steps L) 2 = Some eu
  /\ stage (AEStages.decoder_steps sample_input) 2 = Some da
  /\ stage (UNETStages.decoder_steps L) 2 = Some du
  /\ composition ea = composition eu
  /\ conv_filters ea = conv_filters eu
  /\ composition da = without_concatenation (composition du)
  /\ conv_filters da = conv_filters du.
Proof.
  intros L ea eu da du.
  assert (Hea : stage (AEStages.encoder_steps sample_input) 2 = Some ea)
    by reflexivity.
  assert (Heu : stage (UNETStages.encoder_steps L) 2 = Some eu)
    by reflexivity.
  assert (Hda : stage (AEStages.decoder_steps sample_input) 2 = Some da)
    by reflexivity.
  assert (Hdu : stage (UNETStages.decoder_steps L) 2 = Some du)
    by reflexivity.
  destruct (C3_stagewise_comparison sample_input (3, 256, 256) 3 2
              ea eu da du Hea Heu Hda Hdu)
    as ((Hc & _ & Hf) & _ & Hd & Hdf & _).
  refine (conj Hea (conj Heu (conj Hda (conj Hdu (conj Hc
            (conj (Hf _) (conj (proj1 (Hd _)) (Hdf _)))))))).
  - discriminate.
  - discriminate.
  - right; left; reflexivity.
Defined.

(** C6 on the code: the encoder of [make_generator_ae] has filter counts
    64, 128, 256, 512, 512, 512, 512, 512, which never decrease; the
    encoder of [UNETGenerator] has 1024 filters at stage 5 and 512 at stage
    6, so its channel depth decreases from stage 5 to stage 6. *)
Theorem C6_unet_encoder_filters_decrease (x : tensor)
  (input_img_dim : Z * Z * Z) (num_output_channels : Z) :
  let L := UNET.body input_img_dim num_output_channels in
  stage_filters (AEStages.encoder_steps x)
  = [64; 128; 256; 512; 512; 512; 512; 512]
  /\ nondecreasing (stage_filters (AEStages.encoder_steps x)) = true
  /\ stage_filters (UNETStages.encoder_steps L)
     = [64; 128; 256; 512; 1024; 512; 512; 512]
  /\ nondecreasing (stage_filters (UNETStages.encoder_steps L)) = false
  /\ map (fun t => option_map (channels channels_first)
                     (shape_of channels_first t))
       (UNET.encoder_stages (UNET.body (3, 256, 256) 3))
     = [Some 64; Some 128; Some 256; Some 512;
        Some 1024; Some 512; Some 512; Some 512].
Proof.
  rewrite AE_encoder_steps. repeat split.
Qed.

(** ** Shapes: basic facts *)

Ltac div_lia := Z.to_euclidean_division_equations; lia.

Section Shapes.
Variable df : data_format.

Lemma channels_mk (c h w : Z) : channels df (mk_shape df c h w) = c.
Proof. destruct df; reflexivity. Qed.
Lemma height_mk (c h w : Z) : height df (mk_shape df c h w) = h.
Proof. destruct df; reflexivity. Qed.
Lemma width_mk (c h w : Z) : width df (mk_shape df c h w) = w.
Proof. destruct df; reflexivity. Qed.

Lemma shape_of_call1 (l : layer) (t : tensor) :
  shape_of df (l @ t) = (s <- shape_of df t ;; layer_output_shape df l [s]).
Proof. simpl. destruct (shape_of df t); reflexivity. Qed.

Lemma shape_of_call_skip (l : layer) (t u : tensor) :
  shape_of df (Call l [t; u])
  = (a <- shape_of df t ;; b <- shape_of df u ;;
     layer_output_shape df l [a; b]).
Proof.
  simpl. destruct (shape_of df t); [|reflexivity].
  destruct (shape_of df u); reflexivity.
Qed.

Lemma conv_same_stride_2 (n k : Z) :
  conv_output_length (2 * n) k same 2 = n.
Proof. unfold conv_output_length. div_lia. Qed.

Lemma conv_same_stride_1 (n k : Z) : conv_output_length n k same 1 = n.
Proof. unfold conv_output_length. rewrite Z.div_1_r. lia. Qed.

(** A convolution with positive kernel size and filter count on a tensor
    with positive channel count, and what a convolution that has an output
    shape tells. *)
Lemma conv_kernel_ok_true (f kh kw c : Z) :
  0 < kh -> 0 < kw -> 0 < c -> 0 < f -> conv_kernel_ok f kh kw c = true.
Proof.
  intros Hkh Hkw Hc Hf. unfold conv_kernel_ok.
  apply Z.ltb_lt in Hkh, Hkw, Hc, Hf. now rewrite Hkh, Hkw, Hc, Hf.
Qed.

Lemma out_conv (f kh kw : Z) (p : padding_mode) (sh sw : Z) (s : shape) :
  0 < kh -> 0 < kw -> 0 < channels df s -> 0 < f ->
  layer_output_shape df (Conv2D f (kh, kw) p (sh, sw)) [s]
  = Some (mk_shape df f
            (conv_output_length (height df s) kh p sh)
            (conv_output_length (width df s) kw p sw)).
Proof.
  intros Hkh Hkw Hc Hf. cbn [layer_output_shape].
  now rewrite conv_kernel_ok_true.
Qed.

Lemma out_conv_inv (f kh kw : Z) (p : padding_mode) (sh sw : Z)
  (s s' : shape) :
  layer_output_shape df (Conv2D f (kh, kw) p (sh, sw)) [s] = Some s' ->
  0 < channels df s /\ 0 < f
  /\ s' = mk_shape df f
            (conv_output_length (height df s) kh p sh)
            (conv_output_length (width df s) kw p sw).
Proof.
  cbn [layer_output_shape]. unfold conv_kernel_ok.
  destruct (0 <? kh); [|discriminate]. destruct (0 <? kw); [|discriminate].
  destruct (0 <? channels df s) eqn:Hc; [|discriminate].
  destruct (0 <? f) eqn:Hf; [|discriminate].
  cbn [andb]. intros [= <-]. apply Z.ltb_lt in Hc, Hf. auto.
Qed.

Lemma out_conv_none (f kh kw : Z) (p : padding_mode) (sh sw : Z)
  (s : shape) :
  f <= 0 \/ channels df s <= 0 ->
  layer_output_shape df (Conv2D f (kh, kw) p (sh, sw)) [s] = None.
Proof.
  intros H.
  destruct (layer_output_shape df (Conv2D f (kh, kw) p (sh, sw)) [s])
    as [s'|] eqn:E; [|reflexivity].
  apply out_conv_inv in E. lia.
Qed.

(** One encoder iteration of [make_generator_ae] on a tensor of shape
    [s]. *)
Lemma shape_encoder_block (f : Z) (t : tensor) (s : shape) :
  shape_of df t = Some s ->
  0 < channels df s -> 0 < f ->
  shape_of df (AE.encoder_block 2 f t)
  = Some (mk_shape df f
            (conv_output_length (height df s) 4 same 2)
            (conv_output_length (width df s) 4 same 2)).
Proof.
  intros E Hc Hf. unfold AE.encoder_block.
  destruct (negb (f =? 64)); rewrite !shape_of_call1, E;
    cbn [bind]; rewrite out_conv by lia; reflexivity.
Qed.

(** One decoder iteration. *)
Lemma shape_decoder_block (f : Z) (t : tensor) (s : shape) :
  shape_of df t = Some s ->
  0 < channels df s -> 0 < f ->
  shape_of df (AE.decoder_block f t)
  = Some (mk_shape df f (2 * height df s) (2 * width df s)).
Proof.
  intros E Hc Hf. unfold AE.decoder_block.
  rewrite !shape_of_call1, E.
  cbn [bind layer_output_shape default_strides].
  rewrite conv_kernel_ok_true by (rewrite ?channels_mk; lia).
  rewrite height_mk, width_mk, !conv_same_stride_1. reflexivity.
Qed.

(** The encoder loop on an input whose height and width are multiples of
    2 to the number of iterations: every iteration halves both, so the
    loop divides both by that power of 2. *)
Lemma encoder_loop_halves (fs : list Z) :
  forall (t : tensor) (s : shape),
    shape_of df t = Some s ->
    0 < channels df s ->
    Forall (fun f => 0 < f) fs ->
    (2 ^ Z.of_nat (List.length fs) | height df s) ->
    (2 ^ Z.of_nat (List.length fs) | width df s) ->
    exists s',
      shape_of df (AE.for_each (AE.encoder_block 2) fs t) = Some s'
      /\ 0 < channels df s'
      /\ chain (halves df) s
           (map (shape_of df) (scan (AE.encoder_block 2) fs t))
      /\ height df s = 2 ^ Z.of_nat (List.length fs) * height df s'
      /\ width df s = 2 ^ Z.of_nat (List.length fs) * width df s'.
Proof.
  induction fs as [|f fs IH]; intros t s E Hc Hfs Hh Hw.
  - exists s. split; [exact E|]. split; [exact Hc|]. split; [exact I|].
    change (2 ^ Z.of_nat (List.length (@nil Z))) with 1. lia.
  - cbn [List.length] in *. rewrite Nat2Z.inj_succ, Z.pow_succ_r in * by lia.
    inversion Hfs as [|? ? Hf Hfs']; subst.
    destruct Hh as [a Ha], Hw as [b Hb].
    assert (Hh2 : height df s = 2 * (a * 2 ^ Z.of_nat (List.length fs)))
      by lia.
    assert (Hw2 : width df s = 2 * (b * 2 ^ Z.of_nat (List.length fs)))
      by lia.
    pose proof (shape_encoder_block f t s E Hc Hf) as E1.
    rewrite Hh2, Hw2, !conv_same_stride_2 in E1.
    destruct (IH _ _ E1) as (s' & Es' & Hc' & Hch & Hh' & Hw').
    { now rewrite channels_mk. }
    { exact Hfs'. }
    { rewrite height_mk. now exists a. }
    { rewrite width_mk. now exists b. }
    rewrite height_mk in Hh'. rewrite width_mk in Hw'.
    exists s'. split; [exact Es'|]. split; [exact Hc'|]. split.
    + cbn [scan map chain]. rewrite E1. split; [|exact Hch].
      unfold halves. rewrite height_mk, width_mk. lia.
    + lia.
Qed.

(** The decoder loop doubles height and width at every iteration, on any
    input with channels. *)
Lemma decoder_loop_doubles (fs : list Z) :
  forall (t : tensor) (s : shape),
    shape_of df t = Some s ->
    0 < channels df s ->
    Forall (fun f => 0 < f) fs ->
    exists s',
      shape_of df (AE.for_each AE.decoder_block fs t) = Some s'
      /\ 0 < channels df s'
      /\ chain (doubles df) s
           (map (shape_of df) (scan AE.decoder_block fs t))
      /\ height df s' = 2 ^ Z.of_nat (List.length fs) * height df s
      /\ width df s' = 2 ^ Z.of_nat (List.length fs) * width df s.
Proof.
  induction fs as [|f fs IH]; intros t s E Hc Hfs.
  - exists s. split; [exact E|]. split; [exact Hc|]. split; [exact I|].
    change (2 ^ Z.of_nat (List.length (@nil Z))) with 1. lia.
  - cbn [List.length]. rewrite Nat2Z.inj_succ, Z.pow_succ_r by lia.
    inversion Hfs as [|? ? Hf Hfs']; subst.
    pose proof (shape_decoder_block f t s E Hc Hf) as E1.
    destruct (IH _ _ E1) as (s' & Es' & Hc' & Hch & Hh' & Hw').
    { now rewrite channels_mk. }
    { exact Hfs'. }
    rewrite height_mk in Hh'. rewrite width_mk in Hw'.
    exists s'. split; [exact Es'|]. split; [exact Hc'|]. split.
    + cbn [scan map chain]. rewrite E1. split; [|exact Hch].
      unfold doubles. rewrite height_mk, width_mk. lia.
    + lia.
Qed.

(** The encoder loop produces a tensor with channels on every input that
    has a shape with channels. *)
Lemma encoder_loop_total (fs : list Z) :
  forall (t : tensor) (s : shape),
    shape_of df t = Some s ->
    0 < channels df s ->
    Forall (fun f => 0 < f) fs ->
    exists s',
      shape_of df (AE.for_each (AE.encoder_block 2) fs t) = Some s'
      /\ 0 < channels df s'.
Proof.
  induction fs as [|f fs IH]; intros t s E Hc Hfs; [now exists s|].
  inversion Hfs as [|? ? Hf Hfs']; subst.
  apply (IH _ _ (shape_encoder_block f t s E Hc Hf)); [|exact Hfs'].
  now rewrite channels_mk.
Qed.

Lemma encoder_filter_sizes_positive :
  Forall (fun f => 0 < f) AE.encoder_filter_sizes.
Proof. repeat constructor. Qed.

Lemma decoder_filter_sizes_positive :
  Forall (fun f => 0 < f) AE.decoder_filter_sizes.
Proof. repeat constructor. Qed.

(** The shape of stage [i], read off the list of all stage shapes. *)
Lemma shape_of_stage (stages : list tensor) (shapes : list (option shape))
  (i : nat) (t : tensor) (s : option shape) :
  map (shape_of df) stages = shapes ->
  stage stages i = Some t ->
  stage shapes i = Some s ->
  shape_of df t = s.
Proof.
  intros <- Ht Hs. destruct i as [|i]; [discriminate Ht|].
  cbn [stage] in *. rewrite (map_nth_error _ _ _ Ht) in Hs.
  now injection Hs.
Qed.

End Shapes.

(** ** Shapes in UNETGenerator (channels first) *)

Lemma dbl_pow2 (n : nat) (k : Z) : dbl n k = 2 ^ Z.of_nat n * k.
Proof.
  unfold dbl. induction n as [|n IH].
  - change (k = 1 * k). lia.
  - rewrite Nat2Z.inj_succ, Z.pow_succ_r by lia.
    change (2 * Nat.iter n (Z.mul 2) k = 2 * 2 ^ Z.of_nat n * k).
    rewrite IH. lia.
Qed.

Section LayerShapes.

Lemma bind_some {A B} (a : A) (k : A -> option B) :
  (x <- Some a ;; k x) = k a.
Proof. reflexivity. Qed.

Lemma out_conv_same_2 (f c h w : Z) :
  0 < c -> 0 < f ->
  layer_output_shape channels_first (Conv2D f (4, 4) same (2, 2))
    [(c, 2 * h, 2 * w)] = Some (f, h, w).
Proof.
  intros Hc Hf. rewrite out_conv by (cbn [channels]; lia).
  cbn [mk_shape height width]. now rewrite !conv_same_stride_2.
Qed.

Lemma out_conv_same_1 (f c h w : Z) :
  0 < c -> 0 < f ->
  layer_output_shape channels_first (Conv2D f (4, 4) same default_strides)
    [(c, h, w)] = Some (f, h, w).
Proof.
  intros Hc Hf. unfold default_strides.
  rewrite out_conv by (cbn [channels]; lia).
  cbn [mk_shape height width]. now rewrite !conv_same_stride_1.
Qed.

Lemma out_upsampling (c h w : Z) :
  layer_output_shape channels_first (UpSampling2D (2, 2)) [(c, h, w)]
  = Some (c, 2 * h, 2 * w).
Proof. reflexivity. Qed.

Lemma out_batchnorm (name : option string) (axis : Z) (s : shape) :
  layer_output_shape channels_first (BatchNormalization name axis) [s]
  = Some s.
Proof. reflexivity. Qed.

Lemma out_activation (a : activation) (s : shape) :
  layer_output_shape channels_first (Activation a) [s] = Some s.
Proof. reflexivity. Qed.

Lemma out_leaky (alpha : Q) (s : shape) :
  layer_output_shape channels_first (LeakyReLU alpha) [s] = Some s.
Proof. reflexivity. Qed.

Lemma out_dropout (rate : Q) (s : shape) :
  layer_output_shape channels_first (Dropout rate) [s] = Some s.
Proof. reflexivity. Qed.

(** Concatenation along axis 1 of two tensors of equal height and width
    adds up the first axis, which holds the channels when they come
    first. *)
Lemma out_concat_1 (a b h w : Z) :
  layer_output_shape channels_first (Concatenate 1) [(a, h, w); (b, h, w)]
  = Some (a + b, h, w).
Proof.
  cbn [layer_output_shape fold_left bind]. unfold concat_shapes.
  change (1 <? 0) with false. cbv iota. change (1 =? 1) with true.
  cbv iota. now rewrite !Z.eqb_refl.
Qed.

End LayerShapes.

Create Rewrite HintDb unet_shape.
#[local] Hint Rewrite
  shape_of_call1 shape_of_call_skip @bind_some
  out_upsampling out_batchnorm
  out_activation out_leaky out_dropout out_concat_1 : unet_shape.
#[local] Hint Rewrite out_conv_same_2 out_conv_same_1 using lia : unet_shape.

(** Case analysis on the convolution in the goal: either it has an output
    shape, or the goal's premise is absurd. *)
Ltac destruct_conv Ec :=
  match goal with
  | |- context [layer_output_shape ?d (Conv2D ?f ?k ?p ?st) ?l] =>
      destruct (layer_output_shape d (Conv2D f k p st) l) as [?s1|] eqn:Ec;
      [|cbn [bind]; discriminate]
  end.

Section UNETStageShapes.
Let sh := shape_of channels_first.

Lemma shape_unet_first_encoder (t : tensor) (c h w f : Z) (alpha : Q) :
  0 < c -> 0 < f ->
  sh t = Some (c, 2 * h, 2 * w) ->
  sh (LeakyReLU alpha @ Conv2D f (4, 4) same (2, 2) @ t) = Some (f, h, w).
Proof.
  unfold sh. intros Hc Hf E. autorewrite with unet_shape. rewrite E.
  autorewrite with unet_shape. reflexivity.
Qed.

Lemma shape_unet_encoder (t : tensor) (c h w f : Z) (alpha : Q)
  (name : option string) (axis : Z) :
  0 < c -> 0 < f ->
  sh t = Some (c, 2 * h, 2 * w) ->
  sh (LeakyReLU alpha @ BatchNormalization name axis
      @ Conv2D f (4, 4) same (2, 2) @ t) = Some (f, h, w).
Proof.
  unfold sh. intros Hc Hf E. autorewrite with unet_shape. rewrite E.
  autorewrite with unet_shape. reflexivity.
Qed.

Lemma shape_unet_decoder (t skip : tensor) (c c' h w f : Z) (rate : Q)
  (name : option string) (axis : Z) (a : activation) :
  0 < c -> 0 < f ->
  sh t = Some (c, h, w) ->
  sh skip = Some (c', 2 * h, 2 * w) ->
  sh (Activation a
      @ Call (Concatenate 1)
          [Dropout rate @ BatchNormalization name axis
           @ Conv2D f (4, 4) same default_strides
           @ UpSampling2D (2, 2) @ t;
           skip])
  = Some (f + c', 2 * h, 2 * w).
Proof.
  unfold sh. intros Hc Hf E E'. autorewrite with unet_shape. rewrite E, E'.
  autorewrite with unet_shape. reflexivity.
Qed.

Lemma shape_unet_last (t : tensor) (c h w f : Z) (a : activation) :
  0 < c -> 0 < f ->
  sh t = Some (c, h, w) ->
  sh (Activation a @ Conv2D f (4, 4) same default_strides
      @ UpSampling2D (2, 2) @ t)
  = Some (f, 2 * h, 2 * w).
Proof.
  unfold sh. intros Hc Hf E. autorewrite with unet_shape. rewrite E.
  autorewrite with unet_shape. reflexivity.
Qed.

(** What a decoder stage with a skip connection that has a shape tells:
    its input and the skip tensor have shapes, the input has channels, the
    stage has filters, and the skip tensor is twice as high and as wide as
    the input. *)
Lemma shape_unet_decoder_inv (t skip : tensor) (f : Z) (rate : Q)
  (name : option string) (axis : Z) (a : activation) (sd : shape) :
  sh (Activation a
      @ Call (Concatenate 1)
          [Dropout rate @ BatchNormalization name axis
           @ Conv2D f (4, 4) same default_strides
           @ UpSampling2D (2, 2) @ t;
           skip]) = Some sd ->
  exists c h w c',
    sh t = Some (c, h, w)
    /\ sh skip = Some (c', 2 * h, 2 * w)
    /\ 0 < c /\ 0 < f
    /\ sd = (f + c', 2 * h, 2 * w).
Proof.
  unfold sh. rewrite shape_of_call1, shape_of_call_skip, !shape_of_call1.
  destruct (shape_of channels_first t) as [[[c h] w]|]; [|discriminate].
  autorewrite with unet_shape.
  destruct_conv Ec.
  pose proof Ec as Ec'. unfold default_strides in Ec'.
  apply out_conv_inv in Ec'. destruct Ec' as (Hc & Hf & _).
  cbn [channels] in Hc.
  rewrite out_conv_same_1 in Ec by lia.
  assert (Es1 : s1 = (f, 2 * h, 2 * w)) by congruence. subst s1. clear Ec.
  autorewrite with unet_shape.
  destruct (shape_of channels_first skip) as [[[c' h'] w']|];
    [|cbn [bind]; discriminate].
  cbn [layer_output_shape fold_left bind].
  destruct (concat_shapes 1 (f, 2 * h, 2 * w) (c', h', w')) as [s|] eqn:E;
    [|discriminate].
  cbn [bind layer_output_shape]. intros Hsd.
  unfold concat_shapes in E.
  change (1 <? 0) with false in E. cbv iota in E.
  change (1 =? 1) with true in E. cbv iota in E.
  destruct (2 * h =? h') eqn:Eh; [|discriminate E].
  destruct (2 * w =? w') eqn:Ew; [|discriminate E].
  cbn [andb] in E. apply Z.eqb_eq in Eh, Ew. subst h' w'.
  exists c, h, w, c'. repeat split; try assumption. congruence.
Qed.

(** Channels of a decoder stage with a skip connection, on any input on
    which the stage can be built. *)
Lemma skip_stage_channels (t skip : tensor) (f : Z) (rate : Q)
  (name : option string) (axis : Z) (a : activation) (sd : shape) :
  sh (Activation a
      @ Call (Concatenate 1)
          [Dropout rate @ BatchNormalization name axis
           @ Conv2D f (4, 4) same default_strides
           @ UpSampling2D (2, 2) @ t;
           skip]) = Some sd ->
  exists se,
    sh skip = Some se
    /\ channels channels_first sd = f + channels channels_first se.
Proof.
  intros H. apply shape_unet_decoder_inv in H.
  destruct H as (c & h & w & c' & _ & Hskip & _ & _ & ->).
  exists (c', 2 * h, 2 * w). split; [exact Hskip | reflexivity].
Qed.

(** Channels of a tensor that ends with a convolution and an activation. *)
Lemma conv_activation_channels (t : tensor) (f : Z) (k : Z * Z)
  (p : padding_mode) (st : Z * Z) (a : activation) (s : shape) :
  sh (Activation a @ Conv2D f k p st @ t) = Some s ->
  channels channels_first s = f.
Proof.
  unfold sh. rewrite !shape_of_call1.
  destruct (shape_of channels_first t) as [s0|]; [|discriminate].
  destruct k as [kh kw], st as [sth stw]. cbn [bind].
  destruct_conv Ec.
  apply out_conv_inv in Ec. destruct Ec as (_ & _ & ->).
  cbn [bind layer_output_shape]. intros [= <-].
  apply (channels_mk channels_first).
Qed.

(** Shapes of the encoder stages and of the decoder stages 1 to 7 of
    [UNETGenerator] on an input with channels whose height and width are
    [kh] and [kw] doubled 8 times. *)
Lemma UNET_hidden_stage_shapes (c kh kw n : Z) :
  0 < c ->
  let L := UNET.body (c, dbl 8 kh, dbl 8 kw) n in
  map sh (UNET.encoder_stages L)
  = [Some (64, dbl 7 kh, dbl 7 kw); Some (128, dbl 6 kh, dbl 6 kw);
     Some (256, dbl 5 kh, dbl 5 kw); Some (512, dbl 4 kh, dbl 4 kw);
     Some (1024, dbl 3 kh, dbl 3 kw); Some (512, dbl 2 kh, dbl 2 kw);
     Some (512, dbl 1 kh, dbl 1 kw); Some (512, kh, kw)]
  /\ map sh (firstn 7 (UNET.decoder_stages L))
     = [Some (1024, dbl 1 kh, dbl 1 kw); Some (1024, dbl 2 kh, dbl 2 kw);
        Some (2048, dbl 3 kh, dbl 3 kw); Some (1024, dbl 4 kh, dbl 4 kw);
        Some (512, dbl 5 kh, dbl 5 kw); Some (256, dbl 6 kh, dbl 6 kw);
        Some (128, dbl 7 kh, dbl 7 kw)].
Proof.
  intros Hc L.
  assert (E0 : sh (UNET.input_layer L) = Some (c, dbl 8 kh, dbl 8 kw))
    by reflexivity.
  assert (E1 : sh (UNET.en_1 L) = Some (64, dbl 7 kh, dbl 7 kw))
    by (refine (shape_unet_first_encoder _ _ _ _ _ _ _ _ E0); lia).
  assert (E2 : sh (UNET.en_2 L) = Some (128, dbl 6 kh, dbl 6 kw))
    by (refine (shape_unet_encoder _ _ _ _ _ _ _ _ _ _ E1); lia).
  assert (E3 : sh (UNET.en_3 L) = Some (256, dbl 5 kh, dbl 5 kw))
    by (refine (shape_unet_encoder _ _ _ _ _ _ _ _ _ _ E2); lia).
  assert (E4 : sh (UNET.en_4 L) = Some (512, dbl 4 kh, dbl 4 kw))
    by (refine (shape_unet_encoder _ _ _ _ _ _ _ _ _ _ E3); lia).
  assert (E5 : sh (UNET.en_5 L) = Some (1024, dbl 3 kh, dbl 3 kw))
    by (refine (shape_unet_encoder _ _ _ _ _ _ _ _ _ _ E4); lia).
  assert (E6 : sh (UNET.en_6 L) = Some (512, dbl 2 kh, dbl 2 kw))
    by (refine (shape_unet_encoder _ _ _ _ _ _ _ _ _ _ E5); lia).
  assert (E7 : sh (UNET.en_7 L) = Some (512, dbl 1 kh, dbl 1 kw))
    by (refine (shape_unet_encoder _ _ _ _ _ _ _ _ _ _ E6); lia).
  assert (E8 : sh (UNET.en_8 L) = Some (512, kh, kw))
    by (refine (shape_unet_encoder _ _ _ _ _ _ _ _ _ _ E7); lia).
  assert (D1 : sh (UNET.de_1 L) = Some (1024, dbl 1 kh, dbl 1 kw))
    by (refine (shape_unet_decoder _ _ _ _ _ _ _ _ _ _ _ _ _ E8 E7); lia).
  assert (D2 : sh (UNET.de_2 L) = Some (1024, dbl 2 kh, dbl 2 kw))
    by (refine (shape_unet_decoder _ _ _ _ _ _ _ _ _ _ _ _ _ D1 E6); lia).
  assert (D3 : sh (UNET.de_3 L) = Some (2048, dbl 3 kh, dbl 3 kw))
    by (refine (shape_unet_decoder _ _ _ _ _ _ _ _ _ _ _ _ _ D2 E5); lia).
  assert (D4 : sh (UNET.de_4 L) = Some (1024, dbl 4 kh, dbl 4 kw))
    by (refine (shape_unet_decoder _ _ _ _ _ _ _ _ _ _ _ _ _ D3 E4); lia).
  assert (D5 : sh (UNET.de_5 L) = Some (512, dbl 5 kh, dbl 5 kw))
    by (refine (shape_unet_decoder _ _ _ _ _ _ _ _ _ _ _ _ _ D4 E3); lia).
  assert (D6 : sh (UNET.de_6 L) = Some (256, dbl 6 kh, dbl 6 kw))
    by (refine (shape_unet_decoder _ _ _ _ _ _ _ _ _ _ _ _ _ D5 E2); lia).
  assert (D7 : sh (UNET.de_7 L) = Some (128, dbl 7 kh, dbl 7 kw))
    by (refine (shape_unet_decoder _ _ _ _ _ _ _ _ _ _ _ _ _ D6 E1); lia).
  unfold UNET.encoder_stages, UNET.decoder_stages. cbn [map firstn].
  rewrite E1, E2, E3, E4, E5, E6, E7, E8, D1, D2, D3, D4, D5, D6, D7.
  split; reflexivity.
Qed.

(** Shapes of the 16 stage outputs of [UNETGenerator] on an input with
    channels whose height and width are [kh] and [kw] doubled 8 times, for
    a positive number of output channels. *)
Lemma UNET_stage_shapes (c kh kw n : Z) :
  0 < c -> 0 < n ->
  let L := UNET.body (c, dbl 8 kh, dbl 8 kw) n in
  map sh (UNET.encoder_stages L)
  = [Some (64, dbl 7 kh, dbl 7 kw); Some (128, dbl 6 kh, dbl 6 kw);
     Some (256, dbl 5 kh, dbl 5 kw); Some (512, dbl 4 kh, dbl 4 kw);
     Some (1024, dbl 3 kh, dbl 3 kw); Some (512, dbl 2 kh, dbl 2 kw);
     Some (512, dbl 1 kh, dbl 1 kw); Some (512, kh, kw)]
  /\ map sh (UNET.decoder_stages L)
     = [Some (1024, dbl 1 kh, dbl 1 kw); Some (1024, dbl 2 kh, dbl 2 kw);
        Some (2048, dbl 3 kh, dbl 3 kw); Some (1024, dbl 4 kh, dbl 4 kw);
        Some (512, dbl 5 kh, dbl 5 kw); Some (256, dbl 6 kh, dbl 6 kw);
        Some (128, dbl 7 kh, dbl 7 kw); Some (n, dbl 8 kh, dbl 8 kw)].
Proof.
  intros Hc Hn L.
  destruct (UNET_hidden_stage_shapes c kh kw n Hc) as [Ee Ed].
  fold L in Ee, Ed. split; [exact Ee|].
  pose proof (shape_of_stage channels_first _ _ 7 (UNET.de_7 L) _
                Ed eq_refl eq_refl) as D7.
  assert (D8 : sh (UNET.de_8 L) = Some (n, dbl 8 kh, dbl 8 kw))
    by (refine (shape_unet_last _ _ _ _ _ _ _ _ D7); lia).
  change (UNET.decoder_stages L)
    with (firstn 7 (UNET.decoder_stages L) ++ [UNET.de_8 L]).
  rewrite map_app, Ed. cbn [map]. rewrite D8. reflexivity.
Qed.

End UNETStageShapes.

(** With channels last, axis 1 is the height: the concatenations of
    [UNETGenerator] then stack heights, and on a 256 x 512 input with 3
    channels the output is not of the input's size.  The channels-first
    layout of the docstring is the one in which the skip connections join
    channels. *)
Example UNET_channels_last_example :
  shape_of channels_last (UNET.de_8 (UNET.body (256, 512, 3) 3))
  = Some (2048, 512, 3).
Proof. reflexivity. Qed.

(** A convolution cannot be built with no filters or a negative number of
    them: both generators then have no output shape. *)
Example make_generator_ae_no_filters :
  shape_of channels_first (AE.make_generator_ae sample_input 0) = None.
Proof. reflexivity. Qed.

Example UNETGenerator_negative_channels :
  shape_of channels_first (UNET.de_8 (UNET.body (3, 256, 256) (-1))) = None.
Proof. reflexivity. Qed.

(** ** Spatial resolution *)

Lemma dbl_of_multiple (h : Z) : (2 ^ 8 | h) -> exists k, h = dbl 8 k.
Proof.
  intros [k ->]. exists k. rewrite dbl_pow2.
  change (Z.of_nat 8) with 8. lia.
Qed.

Lemma shape_make_generator_ae (df : data_format) (x : tensor) (s : shape)
  (n : Z) :
  shape_of df (AE.decoder_of (AE.encoder_of x)) = Some s ->
  0 < channels df s -> 0 < n ->
  shape_of df (AE.make_generator_ae x n)
  = Some (mk_shape df n (height df s) (width df s)).
Proof.
  intros E Hc Hn. rewrite make_generator_ae_eq.
  rewrite !shape_of_call1, E. cbn [bind]. unfold default_strides.
  rewrite out_conv by lia. cbn [bind layer_output_shape].
  rewrite !conv_same_stride_1. reflexivity.
Qed.

(** C5: on an input whose height and width are multiples of 2^8, each of
    the 8 encoder stages halves height and width, each of the 8 decoder
    stages doubles them, and the output of the generator, which is built by
    these stages in this order, has the height and width of the input.
    This holds for [make_generator_ae] in either data format, and for
    [UNETGenerator] in the channels-first format its docstring prescribes
    for [input_img_dim].  The input has channels and the output-channel
    argument is positive, as the convolutions need. *)
Theorem C5_spatial_round_trip (df : data_format) (x : tensor) (s : shape)
  (num_output_filters : Z) (c h w num_output_channels : Z)
  (Hs : shape_of df x = Some s)
  (Hsc : 0 < channels df s) (Hnf : 0 < num_output_filters)
  (Hsh : (2 ^ 8 | height df s)) (Hsw : (2 ^ 8 | width df s))
  (Hc : 0 < c) (Hnc : 0 < num_output_channels)
  (Hh : (2 ^ 8 | h)) (Hw : (2 ^ 8 | w)) :
  AE_round_trip df x s num_output_filters
  /\ UNET_round_trip c h w num_output_channels.
Proof.
  split.
  - unfold AE_round_trip. cbv zeta.
    rewrite <- AE_encoder_last.
    change (last (AEStages.decoder_stages x) (AE.encoder_of x))
      with (last (scan AE.decoder_block AE.decoder_filter_sizes
                    (AE.encoder_of x)) (AE.encoder_of x)).
    rewrite <- (for_each_last AE.decoder_block AE.decoder_filter_sizes).
    fold (AE.decoder_of (AE.encoder_of x)).
    split; [split; reflexivity|]. split.
    + split; [reflexivity|]. split; [reflexivity|].
      split; [apply make_generator_ae_eq|].
      apply added_ext. rewrite make_generator_ae_eq.
      unfold AE.decoder_of, AE.encoder_of.
      rewrite !path_call1, (path_for_each _ _ path_decoder_block),
        (path_for_each _ _ (path_encoder_block 2)).
      rewrite AE_encoder_steps, AE_decoder_steps, <- !flat_map_concat_map.
      now rewrite <- !app_assoc.
    + destruct (encoder_loop_halves df AE.encoder_filter_sizes x s Hs Hsc
                  encoder_filter_sizes_positive Hsh Hsw)
        as (s_enc & Eenc & Hce & Hc1 & Hh1 & Hw1).
      destruct (decoder_loop_doubles df AE.decoder_filter_sizes
                  (AE.encoder_of x) s_enc Eenc Hce
                  decoder_filter_sizes_positive)
        as (s_dec & Edec & Hcd & Hc2 & Hh2 & Hw2).
      exists s_enc, s_dec,
        (mk_shape df num_output_filters (height df s_dec) (width df s_dec)).
      split; [exact Eenc|]. split; [exact Hc1|]. split; [exact Hc2|].
      split; [exact Edec|].
      change (Z.of_nat (List.length AE.encoder_filter_sizes)) with 8 in *.
      change (Z.of_nat (List.length AE.decoder_filter_sizes)) with 8 in *.
      split; [lia|]. split; [lia|].
      split; [exact (shape_make_generator_ae df x s_dec _ Edec Hcd Hnf)|].
      rewrite height_mk, width_mk. split; lia.
  - destruct (dbl_of_multiple h Hh) as [kh ->].
    destruct (dbl_of_multiple w Hw) as [kw ->].
    unfold UNET_round_trip. cbv zeta.
    set (L := UNET.body (c, dbl 8 kh, dbl 8 kw) num_output_channels).
    destruct (UNET_stage_shapes c kh kw num_output_channels Hc Hnc)
      as [Ee Ed].
    fold L in Ee, Ed.
    pose proof (shape_of_stage channels_first _ _ 8 (UNET.en_8 L) _
                  Ee eq_refl eq_refl) as E8.
    pose proof (shape_of_stage channels_first _ _ 8 (UNET.de_8 L) _
                  Ed eq_refl eq_refl) as D8.
    change (last (UNET.encoder_stages L) (UNET.input_layer L))
      with (UNET.en_8 L).
    change (last (UNET.decoder_stages L) (UNET.input_layer L))
      with (UNET.de_8 L).
    split; [split; reflexivity|].
    split; [split; [reflexivity|split; reflexivity]|].
    exists (512, kh, kw), (num_output_channels, dbl 8 kh, dbl 8 kw).
    rewrite Ee, Ed.
    split; [reflexivity|]. split; [exact E8|].
    split; [|split; [|split; [exact D8|split; reflexivity]]];
    cbv [chain halves doubles height width dbl Nat.iter nat_rect];
    repeat split; lia.
Qed.

Lemma C5_spatial_round_trip_witness :
  shape_of channels_first sample_input = Some (3, 256, 256)
  /\ 0 < channels channels_first (3, 256, 256) /\ 0 < 3
  /\ (2 ^ 8 | 256) /\ (2 ^ 8 | 512)
  /\ AE_round_trip channels_first sample_input (3, 256, 256) 3
  /\ UNET_round_trip 3 256 512 3.
Proof.
  assert (H256 : (2 ^ 8 | 256)) by (exists 1; reflexivity).
  assert (H512 : (2 ^ 8 | 512)) by (exists 2; reflexivity).
  assert (H3 : 0 < 3) by lia.
  split; [reflexivity|]. split; [exact H3|]. split; [exact H3|].
  split; [exact H256|]. split; [exact H512|].
  exact (C5_spatial_round_trip channels_first sample_input (3, 256, 256) 3
           3 256 512 3 eq_refl H3 H3 H256 H256 H3 H3 H256 H512).
Defined.

Ltac stage_shape H stages_eq i t :=
  pose proof (shape_of_stage channels_first _ _ i t _ stages_eq
                eq_refl eq_refl) as H.

Ltac skip_channels_case prev d e :=
  eexists; exists d, e; eexists;
  split; [reflexivity|]; split; [reflexivity|]; split; [reflexivity|];
  split; [reflexivity|]; split; [do 4 right; left; reflexivity|];
  intros sd Hsd;
  exact (skip_stage_channels prev e _ _ _ _ _ sd Hsd).

(** C8: for decoder stages 1 to 7 of [UNETGenerator] the concatenation is
    along axis 1, the channel axis of the channels-first format, and on
    every input on which the stage can be built its output has as many
    channels as the stage's convolution has filters plus the channels of
    encoder stage [8 - i].  On inputs with channels whose height and width
    are multiples of 2^8 the stages can be built, and stage 3 has
    1024 + 1024 = 2048 channels. *)
Theorem C8_skip_channel_counts (c h w num_output_channels : Z) (i : nat)
  (Hi : (1 <= i <= 7)%nat) :
  UNET_skip_channels c h w num_output_channels i
  /\ (0 < c -> (2 ^ 8 | h) -> (2 ^ 8 | w) ->
      UNET_stage_built c h w num_output_channels i
      /\ option_map (channels channels_first)
           (shape_of channels_first
              (UNET.de_3 (UNET.body (c, h, w) num_output_channels)))
         = Some (1024 + 1024)).
Proof.
  destruct Hi as [Hlo Hhi]. split.
  - unfold UNET_skip_channels.
    set (L := UNET.body (c, h, w) num_output_channels).
    destruct i as [|[|[|[|[|[|[|[|i]]]]]]]]; try lia.
    + skip_channels_case (UNET.en_8 L) (UNET.de_1 L) (UNET.en_7 L).
    + skip_channels_case (UNET.de_1 L) (UNET.de_2 L) (UNET.en_6 L).
    + skip_channels_case (UNET.de_2 L) (UNET.de_3 L) (UNET.en_5 L).
    + skip_channels_case (UNET.de_3 L) (UNET.de_4 L) (UNET.en_4 L).
    + skip_channels_case (UNET.de_4 L) (UNET.de_5 L) (UNET.en_3 L).
    + skip_channels_case (UNET.de_5 L) (UNET.de_6 L) (UNET.en_2 L).
    + skip_channels_case (UNET.de_6 L) (UNET.de_7 L) (UNET.en_1 L).
  - intros Hc Hh Hw.
    destruct (dbl_of_multiple h Hh) as [kh ->].
    destruct (dbl_of_multiple w Hw) as [kw ->].
    destruct (UNET_hidden_stage_shapes c kh kw num_output_channels Hc)
      as [_ Ed].
    unfold UNET_stage_built.
    set (L := UNET.body (c, dbl 8 kh, dbl 8 kw) num_output_channels) in *.
    stage_shape D1 Ed 1%nat (UNET.de_1 L). stage_shape D2 Ed 2%nat (UNET.de_2 L).
    stage_shape D3 Ed 3%nat (UNET.de_3 L). stage_shape D4 Ed 4%nat (UNET.de_4 L).
    stage_shape D5 Ed 5%nat (UNET.de_5 L). stage_shape D6 Ed 6%nat (UNET.de_6 L).
    stage_shape D7 Ed 7%nat (UNET.de_7 L).
    split; [|rewrite D3; reflexivity].
    destruct i as [|[|[|[|[|[|[|[|i]]]]]]]]; try lia;
      [exists (UNET.de_1 L) | exists (UNET.de_2 L) | exists (UNET.de_3 L)
      |exists (UNET.de_4 L) | exists (UNET.de_5 L) | exists (UNET.de_6 L)
      |exists (UNET.de_7 L)];
      eexists; (split; [reflexivity|]); eassumption.
Qed.

Lemma C8_skip_channel_counts_witness :
  (1 <= 3 <= 7)%nat /\ 0 < 3 /\ (2 ^ 8 | 256) /\ (2 ^ 8 | 512)
  /\ UNET_skip_channels 3 256 512 3 3
  /\ UNET_stage_built 3 256 512 3 3
  /\ option_map (channels channels_first)
       (shape_of channels_first (UNET.de_3 (UNET.body (3, 256, 512) 3)))
     = Some (1024 + 1024).
Proof.
  assert (H256 : (2 ^ 8 | 256)) by (exists 1; reflexivity).
  assert (H512 : (2 ^ 8 | 512)) by (exists 2; reflexivity).
  assert (H3 : (1 <= 3 <= 7)%nat) by lia.
  assert (Hc : 0 < 3) by lia.
  split; [exact H3|]. split; [exact Hc|].
  split; [exact H256|]. split; [exact H512|].
  destruct (C8_skip_channel_counts 3 256 512 3 3 H3) as [Hskip Hbuilt].
  exact (conj Hskip (Hbuilt Hc H256 H512)).
Defined.

(** C9: the output of each generator has as many channels as the
    output-channel argument says, for every positive value of that
    argument: the network ends with a convolution with that many filters
    followed by tanh only.  [make_generator_ae] has such an output on every
    input tensor that has a shape with channels; the output of
    [UNETGenerator] has that many channels whenever the model can be
    built, and it can on inputs with channels whose height and width are
    multiples of 2^8. *)
Theorem C9_output_channels (df : data_format) (x : tensor) (s : shape)
  (num_output_filters : Z) (c h w num_output_channels : Z)
  (Hs : shape_of df x = Some s) (Hsc : 0 < channels df s)
  (Hnf : 0 < num_output_filters) (Hnc : 0 < num_output_channels) :
  (added (AE.decoder_of (AE.encoder_of x))
     (AE.make_generator_ae x num_output_filters)
   = [(Conv2D num_output_filters (4, 4) same default_strides, []);
      (Activation tanh, [])]
   /\ exists s_out,
       shape_of df (AE.make_generator_ae x num_output_filters) = Some s_out
       /\ channels df s_out = num_output_filters)
  /\ let L := UNET.body (c, h, w) num_output_channels in
     model_output (UNET.UNETGenerator (c, h, w) num_output_channels)
     = [UNET.de_8 L]
     /\ added (UNET.de_7 L) (UNET.de_8 L)
        = [(UpSampling2D (2, 2), []);
           (Conv2D num_output_channels (4, 4) same default_strides, []);
           (Activation tanh, [])]
     /\ (forall s_out,
            shape_of channels_first (UNET.de_8 L) = Some s_out ->
            channels channels_first s_out = num_output_channels)
     /\ (0 < c -> (2 ^ 8 | h) -> (2 ^ 8 | w) ->
         exists s_out,
           shape_of channels_first (UNET.de_8 L) = Some s_out
           /\ channels channels_first s_out = num_output_channels).
Proof.
  split.
  - split.
    + apply added_ext. rewrite make_generator_ae_eq.
      rewrite !path_call1, <- !app_assoc. reflexivity.
    + destruct (encoder_loop_total df AE.encoder_filter_sizes x s Hs Hsc
                  encoder_filter_sizes_positive) as (s_enc & Eenc & Hce).
      destruct (decoder_loop_doubles df AE.decoder_filter_sizes
                  (AE.encoder_of x) s_enc Eenc Hce
                  decoder_filter_sizes_positive)
        as (s_dec & Edec & Hcd & _).
      eexists.
      split; [exact (shape_make_generator_ae df x s_dec _ Edec Hcd Hnf)|].
      apply channels_mk.
  - intros L. split; [reflexivity|]. split; [reflexivity|]. split.
    + intros s_out Hout.
      exact (conv_activation_channels (UpSampling2D (2, 2) @ UNET.de_7 L)
               _ _ _ _ _ s_out Hout).
    + intros Hc Hh Hw. subst L.
      destruct (dbl_of_multiple h Hh) as [kh ->].
      destruct (dbl_of_multiple w Hw) as [kw ->].
      destruct (UNET_stage_shapes c kh kw num_output_channels Hc Hnc)
        as [_ Ed].
      set (L := UNET.body (c, dbl 8 kh, dbl 8 kw) num_output_channels) in *.
      stage_shape D8 Ed 8%nat (UNET.de_8 L).
      eexists. split; [exact D8|]. reflexivity.
Qed.

Lemma C9_output_channels_witness :
  shape_of channels_last (Input (100, 60, 1) "gray") = Some (100, 60, 1)
  /\ 0 < channels channels_last (100, 60, 1) /\ 0 < 2 /\ 0 < 3
  /\ (2 ^ 8 | 256) /\ (2 ^ 8 | 512)
  /\ (exists s_out,
         shape_of channels_last
           (AE.make_generator_ae (Input (100, 60, 1) "gray") 2) = Some s_out
         /\ channels channels_last s_out = 2)
  /\ (exists s_out,
         shape_of channels_first (UNET.de_8 (UNET.body (3, 256, 512) 3))
         = Some s_out
         /\ channels channels_first s_out = 3).
Proof.
  assert (H256 : (2 ^ 8 | 256)) by (exists 1; reflexivity).
  assert (H512 : (2 ^ 8 | 512)) by (exists 2; reflexivity).
  assert (H1 : 0 < channels channels_last (100, 60, 1)) by (cbn; lia).
  assert (H2 : 0 < 2) by lia. assert (H3 : 0 < 3) by lia.
  split; [reflexivity|]. split; [exact H1|]. split; [exact H2|].
  split; [exact H3|]. split; [exact H256|]. split; [exact H512|].
  destruct (C9_output_channels channels_last (Input (100, 60, 1) "gray")
              (100, 60, 1) 2 3 256 512 3 eq_refl H1 H2 H3)
    as ((_ & Hae) & _ & _ & _ & Hunet).
  exact (conj Hae (Hunet H3 H256 H512)).
Defined.

(** ** Convolution settings *)

Section KeepsSize.
Variable df : data_format.

Lemma keeps_size_conv (f : Z) (k : Z * Z) (others : list tensor) :
  keeps_size df (Conv2D f k same default_strides, others).
Proof.
  intros s_in ins s_out. destruct k as [kh kw].
  cbn [fst]. unfold default_strides.
  destruct ins; [|destruct (conv_kernel_ok f kh kw (channels df s_in));
                   discriminate].
  intros E. apply out_conv_inv in E. destruct E as (_ & _ & ->).
  now rewrite height_mk, width_mk, !conv_same_stride_1.
Qed.

Lemma keeps_size_batchnorm (name : option string) (axis : Z)
  (others : list tensor) :
  keeps_size df (BatchNormalization name axis, others).
Proof.
  intros s_in ins s_out. cbn [fst layer_output_shape].
  destruct ins; [|discriminate]. now intros [= <-].
Qed.

Lemma keeps_size_dropout (rate : Q) (others : list tensor) :
  keeps_size df (Dropout rate, others).
Proof.
  intros s_in ins s_out. cbn [fst layer_output_shape].
  destruct ins; [|discriminate]. now intros [= <-].
Qed.

Lemma keeps_size_activation (a : activation) (others : list tensor) :
  keeps_size df (Activation a, others).
Proof.
  intros s_in ins s_out. cbn [fst layer_output_shape].
  destruct ins; [|discriminate]. now intros [= <-].
Qed.

End KeepsSize.

(** Concatenating along axis 1 leaves axes 2 and 3 alone. *)
Lemma concat_shapes_1 (a b out : shape) :
  concat_shapes 1 a b = Some out ->
  snd (fst out) = snd (fst a) /\ snd out = snd a.
Proof.
  destruct a as [[a1 a2] a3], b as [[b1 b2] b3]. unfold concat_shapes.
  change (1 <? 0) with false. cbv iota. change (1 =? 1) with true. cbv iota.
  destruct ((a2 =? b2) && (a3 =? b3)); [|discriminate].
  now intros [= <-].
Qed.

Lemma concat_fold_1 (ins : list shape) :
  forall (acc : option shape) (a out : shape),
    acc = Some a ->
    fold_left (fun acc s => x <- acc ;; concat_shapes 1 x s) ins acc
    = Some out ->
    snd (fst out) = snd (fst a) /\ snd out = snd a.
Proof.
  induction ins as [|b ins IH]; intros acc a out -> H.
  - now injection H as <-.
  - cbn [fold_left bind] in H.
    destruct (concat_shapes 1 a b) as [ab|] eqn:E.
    + destruct (concat_shapes_1 _ _ _ E) as [E2 E3].
      destruct (IH _ ab out eq_refl H) as [H2 H3]. split; congruence.
    + exfalso. clear -H. induction ins as [|c ins IH']; [discriminate H|].
      apply IH'. exact H.
Qed.

Lemma keeps_size_concat_1 (others : list tensor) :
  keeps_size channels_first (Concatenate 1, others).
Proof.
  intros s_in ins s_out. cbn [fst layer_output_shape].
  destruct ins as [|b rest]; [discriminate|]. intros H.
  destruct (concat_fold_1 (b :: rest) (Some s_in) s_in s_out eq_refl H)
    as [H2 H3].
  destruct s_in as [[a1 a2] a3], s_out as [[o1 o2] o3]. cbn in *.
  split; congruence.
Qed.

Ltac size_step :=
  first [ left; reflexivity
        | right; first [ apply keeps_size_conv | apply keeps_size_batchnorm
                       | apply keeps_size_dropout | apply keeps_size_activation
                       | apply keeps_size_concat_1 ] ].

(** C10: in both generators every convolution has a 4x4 kernel and 'same'
    padding; the convolutions of the encoder (8 in each generator) have
    strides (2, 2); those of the decoder (9 in [make_generator_ae], 8 in
    [UNETGenerator]) have the default strides (1, 1), and every decoder
    step other than the 8 upsamplings by (2, 2) leaves height and width
    unchanged. *)
Theorem C10_convolution_settings (x : tensor) (num_output_filters : Z)
  (input_img_dim : Z * Z * Z) (num_output_channels : Z) :
  let ae_enc := added x (AE.encoder_of x) in
  let ae_dec :=
    added (AE.encoder_of x) (AE.make_generator_ae x num_output_filters) in
  let L := UNET.body input_img_dim num_output_channels in
  let unet_enc := path (UNET.en_8 L) in
  let unet_dec := added (UNET.en_8 L) (UNET.de_8 L) in
  (path (AE.make_generator_ae x num_output_filters)
   = path x ++ ae_enc ++ ae_dec
   /\ path (UNET.de_8 L) = unet_enc ++ unet_dec)
  /\ Forall (conv_uses (4, 4) same)
       (layers (ae_enc ++ ae_dec ++ unet_enc ++ unet_dec))
  /\ Forall (conv_stride (2, 2)) (layers (ae_enc ++ unet_enc))
  /\ Forall (conv_stride default_strides) (layers (ae_dec ++ unet_dec))
  /\ (forall df, Forall (upsampling_or_keeps_size df) ae_dec)
  /\ Forall (upsampling_or_keeps_size channels_first) unet_dec
  /\ (count is_conv ae_enc, count is_conv ae_dec,
      count is_conv unet_enc, count is_conv unet_dec) = (8, 9, 8, 8)%nat
  /\ (count is_upsample ae_enc, count is_upsample ae_dec,
      count is_upsample unet_enc, count is_upsample unet_dec)
     = (0, 8, 0, 8)%nat.
Proof.
  intros ae_enc ae_dec L unet_enc unet_dec.
  assert (Hpath : path (AE.make_generator_ae x num_output_filters)
                  = path x ++ ae_enc ++ ae_dec).
  { rewrite make_generator_ae_eq. unfold AE.decoder_of, AE.encoder_of.
    rewrite !path_call1, (path_for_each _ _ path_decoder_block),
      (path_for_each _ _ (path_encoder_block 2)).
    subst ae_enc ae_dec. rewrite AE_encoder_added, AE_decoder_added.
    now rewrite <- !app_assoc. }
  subst ae_enc ae_dec. rewrite AE_encoder_added, AE_decoder_added in *.
  split; [split; [exact Hpath | reflexivity]|].
  split; [repeat constructor|].
  split; [repeat constructor|].
  split; [repeat constructor|].
  split; [intros df; repeat (constructor; [size_step|]); constructor|].
  split; [repeat (constructor; [size_step|]); constructor|].
  split; reflexivity.
Qed.

(** * Further properties of the two generators *)

(** ** make_generator_ae on inputs of any size *)

Section AEAnySize.
Variable df : data_format.

Lemma mk_shape_eta (s : shape) :
  mk_shape df (channels df s) (height df s) (width df s) = s.
Proof. destruct df, s as [[a b] c]; reflexivity. Qed.

Lemma conv_same_ceil (n k st : Z) :
  conv_output_length n k same st = ceil_div n st.
Proof. reflexivity. Qed.

(** Eight roundings-up by 2 are one rounding-up by 256. *)
Lemma ceil_div_2_eight_times (n : Z) :
  Nat.iter 8 (fun m => ceil_div m 2) n = ceil_div n 256.
Proof. cbv [Nat.iter nat_rect ceil_div]. div_lia. Qed.

(** The encoder loop on any input with channels: every iteration rounds
    half the height and half the width up. *)
Lemma encoder_loop_shape (fs : list Z) :
  forall (t : tensor) (s : shape),
    shape_of df t = Some s ->
    0 < channels df s ->
    Forall (fun f => 0 < f) fs ->
    shape_of df (AE.for_each (AE.encoder_block 2) fs t)
    = Some (mk_shape df (last fs (channels df s))
              (Nat.iter (List.length fs) (fun m => ceil_div m 2)
                 (height df s))
              (Nat.iter (List.length fs) (fun m => ceil_div m 2)
                 (width df s))).
Proof.
  induction fs as [|f fs IH]; intros t s E Hc Hfs.
  - cbn [AE.for_each fold_left List.length Nat.iter nat_rect last].
    now rewrite mk_shape_eta.
  - inversion Hfs as [|? ? Hf Hfs']; subst.
    pose proof (shape_encoder_block df f t s E Hc Hf) as E1.
    change (AE.for_each (AE.encoder_block 2) (f :: fs) t)
      with (AE.for_each (AE.encoder_block 2) fs (AE.encoder_block 2 f t)).
    rewrite (IH _ _ E1) by (rewrite ?channels_mk; assumption).
    rewrite channels_mk, height_mk, width_mk, !conv_same_ceil.
    cbn [List.length]. rewrite !Nat.iter_succ_r. f_equal. f_equal.
    destruct fs as [|g fs]; [reflexivity|].
    change (last (f :: g :: fs) (channels df s))
      with (last (g :: fs) (channels df s)).
    apply last_cons_default.
Qed.

(** A tensor without a shape stays without one through both loops. *)
Lemma encoder_loop_none (fs : list Z) :
  forall t : tensor,
    shape_of df t = None ->
    shape_of df (AE.for_each (AE.encoder_block 2) fs t) = None.
Proof.
  induction fs as [|f fs IH]; intros t E; [exact E|].
  apply IH. unfold AE.encoder_block.
  destruct (negb (f =? 64)); rewrite !shape_of_call1, E; reflexivity.
Qed.

Lemma decoder_loop_none (fs : list Z) :
  forall t : tensor,
    shape_of df t = None ->
    shape_of df (AE.for_each AE.decoder_block fs t) = None.
Proof.
  induction fs as [|f fs IH]; intros t E; [exact E|].
  apply IH. unfold AE.decoder_block.
  rewrite !shape_of_call1, E. reflexivity.
Qed.

(** An encoder iteration on a tensor without channels has no shape. *)
Lemma encoder_block_none (f : Z) (t : tensor) (s : shape) :
  shape_of df t = Some s ->
  channels df s <= 0 ->
  shape_of df (AE.encoder_block 2 f t) = None.
Proof.
  intros E Hc. unfold AE.encoder_block.
  destruct (negb (f =? 64)); rewrite !shape_of_call1, E; cbn [bind];
    rewrite out_conv_none by (right; exact Hc); reflexivity.
Qed.

End AEAnySize.

Lemma make_generator_ae_shape (df : data_format) (x : tensor)
  (num_output_filters : Z) :
  shape_of df (AE.make_generator_ae x num_output_filters)
  = match shape_of df x with
    | Some s =>
        if (0 <? channels df s) && (0 <? num_output_filters)
        then Some (mk_shape df num_output_filters
                     (256 * ceil_div (height df s) 256)
                     (256 * ceil_div (width df s) 256))
        else None
    | None => None
    end.
Proof.
  destruct (shape_of df x) as [s|] eqn:E.
  - destruct (0 <? channels df s) eqn:Hc; cbn [andb].
    + apply Z.ltb_lt in Hc.
      pose proof (encoder_loop_shape df AE.encoder_filter_sizes x s E Hc
                    encoder_filter_sizes_positive) as Eenc.
      fold (AE.encoder_of x) in Eenc.
      destruct (decoder_loop_doubles df AE.decoder_filter_sizes
                  (AE.encoder_of x) _ Eenc) as (s_dec & Edec & Hcd & _ & Hh & Hw).
      { rewrite channels_mk. reflexivity. }
      { exact decoder_filter_sizes_positive. }
      rewrite height_mk in Hh. rewrite width_mk in Hw.
      change (List.length AE.encoder_filter_sizes) with 8%nat in Hh, Hw.
      rewrite !ceil_div_2_eight_times in Hh, Hw.
      change (2 ^ Z.of_nat (List.length AE.decoder_filter_sizes))
        with 256 in Hh, Hw.
      destruct (0 <? num_output_filters) eqn:Hn.
      * apply Z.ltb_lt in Hn.
        rewrite (shape_make_generator_ae df x s_dec _ Edec Hcd Hn), Hh, Hw.
        reflexivity.
      * apply Z.ltb_ge in Hn.
        rewrite make_generator_ae_eq, !shape_of_call1.
        unfold AE.decoder_of. rewrite Edec. cbn [bind].
        unfold default_strides.
        rewrite out_conv_none by (left; exact Hn). reflexivity.
    + apply Z.ltb_ge in Hc.
      rewrite make_generator_ae_eq, !shape_of_call1.
      unfold AE.decoder_of, AE.encoder_of.
      change (AE.for_each (AE.encoder_block 2) AE.encoder_filter_sizes x)
        with (AE.for_each (AE.encoder_block 2)
                (tl AE.encoder_filter_sizes) (AE.encoder_block 2 64 x)).
      rewrite (decoder_loop_none df _ _
                 (encoder_loop_none df _ _ (encoder_block_none df 64 x s E Hc))).
      reflexivity.
  - rewrite make_generator_ae_eq, !shape_of_call1.
    unfold AE.decoder_of, AE.encoder_of.
    rewrite (decoder_loop_none df _ _ (encoder_loop_none df _ _ E)).
    reflexivity.
Qed.

(** X1: the output shape of [make_generator_ae] on every input tensor.
    There is none if the input has no shape, if the input has no channels,
    or if [num_output_filters] is not positive (a convolution then fails).
    Otherwise the output has [num_output_filters] channels, and height and
    width are those of the input rounded up to the next multiple of 256. *)
Theorem X1_ae_output_shape (df : data_format) (x : tensor)
  (num_output_filters : Z) :
  shape_of df (AE.make_generator_ae x num_output_filters)
  = match shape_of df x with
    | Some s =>
        if (0 <? channels df s) && (0 <? num_output_filters)
        then Some (mk_shape df num_output_filters
                     (256 * ceil_div (height df s) 256)
                     (256 * ceil_div (width df s) 256))
        else None
    | None => None
    end.
Proof. apply make_generator_ae_shape. Qed.

Lemma make_generator_ae_shape_positive (df : data_format) (x : tensor)
  (s : shape) (n : Z) :
  shape_of df x = Some s -> 0 < channels df s -> 0 < n ->
  shape_of df (AE.make_generator_ae x n)
  = Some (mk_shape df n (256 * ceil_div (height df s) 256)
            (256 * ceil_div (width df s) 256)).
Proof.
  intros E Hc Hn. rewrite make_generator_ae_shape, E.
  apply Z.ltb_lt in Hc, Hn. now rewrite Hc, Hn.
Qed.

Lemma round_up_256 (n : Z) :
  n <= 256 * ceil_div n 256 < n + 256
  /\ (256 * ceil_div n 256 = n <-> (256 | n)).
Proof.
  split; [unfold ceil_div; div_lia|]. split.
  - intros E. exists (ceil_div n 256). lia.
  - intros [k ->]. unfold ceil_div. div_lia.
Qed.

(** X2: the output of [make_generator_ae], for an input with channels and
    a positive number of output filters, is never smaller than its input
    and less than 256 larger, along height and along width; it has the
    input's height (width) exactly when that is a multiple of 256. *)
Theorem X2_ae_output_size (df : data_format) (x : tensor) (s : shape)
  (num_output_filters : Z) (Hs : shape_of df x = Some s)
  (Hsc : 0 < channels df s) (Hnf : 0 < num_output_filters) :
  exists s_out,
    shape_of df (AE.make_generator_ae x num_output_filters) = Some s_out
    /\ height df s <= height df s_out < height df s + 256
    /\ width df s <= width df s_out < width df s + 256
    /\ (height df s_out = height df s <-> (256 | height df s))
    /\ (width df s_out = width df s <-> (256 | width df s)).
Proof.
  eexists.
  split; [exact (make_generator_ae_shape_positive df x s _ Hs Hsc Hnf)|].
  rewrite height_mk, width_mk.
  destruct (round_up_256 (height df s)) as [Bh Ih].
  destruct (round_up_256 (width df s)) as [Bw Iw].
  repeat split; try apply Ih; try apply Iw; lia.
Qed.

Lemma X2_ae_output_size_witness :
  shape_of channels_last (Input (100, 300, 1) "gray") = Some (100, 300, 1)
  /\ 0 < channels channels_last (100, 300, 1) /\ 0 < 2
  /\ exists s_out,
      shape_of channels_last
        (AE.make_generator_ae (Input (100, 300, 1) "gray") 2) = Some s_out
      /\ 100 <= height channels_last s_out < 100 + 256
      /\ 300 <= width channels_last s_out < 300 + 256
      /\ (height channels_last s_out = 100 <-> (256 | 100))
      /\ (width channels_last s_out = 300 <-> (256 | 300)).
Proof.
  assert (H1 : 0 < channels channels_last (100, 300, 1)) by (cbn; lia).
  assert (H2 : 0 < 2) by lia.
  split; [reflexivity|]. split; [exact H1|]. split; [exact H2|].
  exact (X2_ae_output_size channels_last (Input (100, 300, 1) "gray")
           (100, 300, 1) 2 eq_refl H1 H2).
Defined.

(** ** UNETGenerator on inputs of any size (channels first) *)

Lemma triple_inj (a b c a' b' c' : Z) :
  (a, b, c) = (a', b', c') -> a = a' /\ b = b' /\ c = c'.
Proof. intros H. repeat split; congruence. Qed.

Section UNETAnySize.
Let sh := shape_of channels_first.

Lemma shape_unet_first_encoder_any (t : tensor) (c h w f : Z) (alpha : Q) :
  0 < c -> 0 < f ->
  sh t = Some (c, h, w) ->
  sh (LeakyReLU alpha @ Conv2D f (4, 4) same (2, 2) @ t)
  = Some (f, ceil_div h 2, ceil_div w 2).
Proof.
  unfold sh. intros Hc Hf E. rewrite !shape_of_call1, E. cbn [bind].
  rewrite out_conv by (cbn [channels]; lia). reflexivity.
Qed.

Lemma shape_unet_encoder_any (t : tensor) (c h w f : Z) (alpha : Q)
  (name : option string) (axis : Z) :
  0 < c -> 0 < f ->
  sh t = Some (c, h, w) ->
  sh (LeakyReLU alpha @ BatchNormalization name axis
      @ Conv2D f (4, 4) same (2, 2) @ t)
  = Some (f, ceil_div h 2, ceil_div w 2).
Proof.
  unfold sh. intros Hc Hf E. rewrite !shape_of_call1, E. cbn [bind].
  rewrite out_conv by (cbn [channels]; lia). reflexivity.
Qed.

(** The first encoder stage has a shape only on an input with channels. *)
Lemma shape_unet_first_encoder_inv (t : tensor) (f : Z) (alpha : Q)
  (s : shape) :
  sh (LeakyReLU alpha @ Conv2D f (4, 4) same (2, 2) @ t) = Some s ->
  exists c h w,
    sh t = Some (c, h, w) /\ 0 < c
    /\ s = (f, ceil_div h 2, ceil_div w 2).
Proof.
  unfold sh. rewrite !shape_of_call1.
  destruct (shape_of channels_first t) as [[[c h] w]|]; [|discriminate].
  cbn [bind]. destruct_conv Ec.
  apply out_conv_inv in Ec. destruct Ec as (Hc & _ & ->).
  cbn [bind layer_output_shape]. intros E.
  exists c, h, w. split; [reflexivity|]. split; [exact Hc|].
  cbn [mk_shape height width] in E. rewrite !conv_same_ceil in E.
  congruence.
Qed.

(** The last stage has a shape only if its input has one, with channels,
    and the number of output channels is positive. *)
Lemma shape_unet_last_inv (t : tensor) (f : Z) (a : activation) (s : shape) :
  sh (Activation a @ Conv2D f (4, 4) same default_strides
      @ UpSampling2D (2, 2) @ t) = Some s ->
  exists c h w,
    sh t = Some (c, h, w) /\ 0 < c /\ 0 < f /\ s = (f, 2 * h, 2 * w).
Proof.
  unfold sh. rewrite !shape_of_call1.
  destruct (shape_of channels_first t) as [[[c h] w]|]; [|discriminate].
  autorewrite with unet_shape. destruct_conv Ec.
  pose proof Ec as Ec'. unfold default_strides in Ec'.
  apply out_conv_inv in Ec'. destruct Ec' as (Hc & Hf & _).
  cbn [channels] in Hc.
  rewrite out_conv_same_1 in Ec by lia.
  autorewrite with unet_shape. intros E.
  exists c, h, w. repeat split; try assumption. congruence.
Qed.

(** The encoder of [UNETGenerator] has a shape at every stage, on every
    input with channels. *)
Lemma UNET_encoder_shapes_any (c h w n : Z) :
  0 < c ->
  let L := UNET.body (c, h, w) n in
  let up := fun m => ceil_div m 2 in
  map sh (UNET.encoder_stages L)
  = [Some (64, up h, up w);
     Some (128, up (up h), up (up w));
     Some (256, Nat.iter 3 up h, Nat.iter 3 up w);
     Some (512, Nat.iter 4 up h, Nat.iter 4 up w);
     Some (1024, Nat.iter 5 up h, Nat.iter 5 up w);
     Some (512, Nat.iter 6 up h, Nat.iter 6 up w);
     Some (512, Nat.iter 7 up h, Nat.iter 7 up w);
     Some (512, Nat.iter 8 up h, Nat.iter 8 up w)].
Proof.
  intros Hc L up.
  assert (P64 : 0 < 64) by lia. assert (P128 : 0 < 128) by lia.
  assert (P256 : 0 < 256) by lia. assert (P512 : 0 < 512) by lia.
  assert (P1024 : 0 < 1024) by lia.
  assert (E0 : sh (UNET.input_layer L) = Some (c, h, w)) by reflexivity.
  pose proof (shape_unet_first_encoder_any _ _ _ _ 64 0.2%Q Hc P64 E0)
    as E1.
  pose proof (shape_unet_encoder_any _ _ _ _ 128 0.2%Q
                (Some "gen_en_bn_2") 1 P64 P128 E1) as E2.
  pose proof (shape_unet_encoder_any _ _ _ _ 256 0.2%Q
                (Some "gen_en_bn_3") 1 P128 P256 E2) as E3.
  pose proof (shape_unet_encoder_any _ _ _ _ 512 0.2%Q
                (Some "gen_en_bn_4") 1 P256 P512 E3) as E4.
  pose proof (shape_unet_encoder_any _ _ _ _ 1024 0.2%Q
                (Some "gen_en_bn_5") 1 P512 P1024 E4) as E5.
  pose proof (shape_unet_encoder_any _ _ _ _ 512 0.2%Q
                (Some "gen_en_bn_6") 1 P1024 P512 E5) as E6.
  pose proof (shape_unet_encoder_any _ _ _ _ 512 0.2%Q
                (Some "gen_en_bn_7") 1 P512 P512 E6) as E7.
  pose proof (shape_unet_encoder_any _ _ _ _ 512 0.2%Q
                (Some "gen_en_bn_8") 1 P512 P512 E7) as E8.
  change (sh (UNET.en_1 L) = Some (64, up h, up w)) in E1.
  change (sh (UNET.en_2 L) = Some (128, up (up h), up (up w))) in E2.
  change (sh (UNET.en_3 L) = Some (256, Nat.iter 3 up h, Nat.iter 3 up w))
    in E3.
  change (sh (UNET.en_4 L) = Some (512, Nat.iter 4 up h, Nat.iter 4 up w))
    in E4.
  change (sh (UNET.en_5 L) = Some (1024, Nat.iter 5 up h, Nat.iter 5 up w))
    in E5.
  change (sh (UNET.en_6 L) = Some (512, Nat.iter 6 up h, Nat.iter 6 up w))
    in E6.
  change (sh (UNET.en_7 L) = Some (512, Nat.iter 7 up h, Nat.iter 7 up w))
    in E7.
  change (sh (UNET.en_8 L) = Some (512, Nat.iter 8 up h, Nat.iter 8 up w))
    in E8.
  unfold UNET.encoder_stages. cbn [map].
  rewrite E1, E2, E3, E4, E5, E6, E7, E8. reflexivity.
Qed.

End UNETAnySize.

(** What an output with a shape tells about the arguments of
    [UNETGenerator]. *)
Lemma UNET_built_inv (c h w n : Z) (s : shape) :
  shape_of channels_first (UNET.de_8 (UNET.body (c, h, w) n)) = Some s ->
  s = (n, 2 * ceil_div h 2, 2 * ceil_div w 2)
  /\ 0 < c /\ 0 < n
  /\ (128 | ceil_div h 2) /\ (128 | ceil_div w 2).
Proof.
  set (L := UNET.body (c, h, w) n). intros H8.
  destruct (shape_unet_last_inv (UNET.de_7 L) _ _ _ H8)
    as (c7 & h7 & w7 & H7 & _ & Hn & ->).
  destruct (shape_unet_decoder_inv (UNET.de_6 L) (UNET.en_1 L) _ _ _ _ _ _ H7)
    as (c6 & h6 & w6 & k1 & H6 & S1 & _ & _ & Q7).
  destruct (shape_unet_decoder_inv (UNET.de_5 L) (UNET.en_2 L) _ _ _ _ _ _ H6)
    as (c5 & h5 & w5 & k2 & H5 & _ & _ & _ & Q6).
  destruct (shape_unet_decoder_inv (UNET.de_4 L) (UNET.en_3 L) _ _ _ _ _ _ H5)
    as (c4 & h4 & w4 & k3 & H4 & _ & _ & _ & Q5).
  destruct (shape_unet_decoder_inv (UNET.de_3 L) (UNET.en_4 L) _ _ _ _ _ _ H4)
    as (c3 & h3 & w3 & k4 & H3 & _ & _ & _ & Q4).
  destruct (shape_unet_decoder_inv (UNET.de_2 L) (UNET.en_5 L) _ _ _ _ _ _ H3)
    as (c2 & h2 & w2 & k5 & H2 & _ & _ & _ & Q3).
  destruct (shape_unet_decoder_inv (UNET.de_1 L) (UNET.en_6 L) _ _ _ _ _ _ H2)
    as (c1 & h1 & w1 & k6 & H1 & _ & _ & _ & Q2).
  destruct (shape_unet_decoder_inv (UNET.en_8 L) (UNET.en_7 L) _ _ _ _ _ _ H1)
    as (c0 & h0 & w0 & k7 & _ & _ & _ & _ & Q1).
  destruct (shape_unet_first_encoder_inv (UNET.input_layer L) _ _ _ S1)
    as (ci & hi & wi & Hin & Hc & Q0).
  assert (Ein : (ci, hi, wi) = (c, h, w))
    by (change (Some (c, h, w) = Some (ci, hi, wi)) in Hin; congruence).
  apply triple_inj in Ein, Q0, Q1, Q2, Q3, Q4, Q5, Q6, Q7.
  destruct Ein as (-> & -> & ->).
  destruct Q0 as (_ & Sh & Sw). destruct Q7 as (_ & Qh7 & Qw7).
  destruct Q6 as (_ & Qh6 & Qw6). destruct Q5 as (_ & Qh5 & Qw5).
  destruct Q4 as (_ & Qh4 & Qw4). destruct Q3 as (_ & Qh3 & Qw3).
  destruct Q2 as (_ & Qh2 & Qw2). destruct Q1 as (_ & Qh1 & Qw1).
  split; [f_equal; [f_equal|]; lia|].
  split; [exact Hc|]. split; [exact Hn|].
  split; [exists h0 | exists w0]; lia.
Qed.

Lemma UNET_built (c h w n a b : Z) :
  0 < c -> 0 < n ->
  ceil_div h 2 = dbl 7 a -> ceil_div w 2 = dbl 7 b ->
  shape_of channels_first (UNET.de_8 (UNET.body (c, h, w) n))
  = Some (n, dbl 8 a, dbl 8 b).
Proof.
  set (L := UNET.body (c, h, w) n). intros Hc Hn Ha Hb.
  set (sh := shape_of channels_first).
  pose proof (UNET_encoder_shapes_any c h w n Hc) as Ee.
  cbv beta zeta in Ee. fold L in Ee.
  stage_shape E1 Ee 1%nat (UNET.en_1 L). rewrite Ha, Hb in E1. fold sh in E1.
  assert (E2 : sh (UNET.en_2 L) = Some (128, dbl 6 a, dbl 6 b))
    by (refine (shape_unet_encoder _ _ _ _ _ _ _ _ _ _ E1); lia).
  assert (E3 : sh (UNET.en_3 L) = Some (256, dbl 5 a, dbl 5 b))
    by (refine (shape_unet_encoder _ _ _ _ _ _ _ _ _ _ E2); lia).
  assert (E4 : sh (UNET.en_4 L) = Some (512, dbl 4 a, dbl 4 b))
    by (refine (shape_unet_encoder _ _ _ _ _ _ _ _ _ _ E3); lia).
  assert (E5 : sh (UNET.en_5 L) = Some (1024, dbl 3 a, dbl 3 b))
    by (refine (shape_unet_encoder _ _ _ _ _ _ _ _ _ _ E4); lia).
  assert (E6 : sh (UNET.en_6 L) = Some (512, dbl 2 a, dbl 2 b))
    by (refine (shape_unet_encoder _ _ _ _ _ _ _ _ _ _ E5); lia).
  assert (E7 : sh (UNET.en_7 L) = Some (512, dbl 1 a, dbl 1 b))
    by (refine (shape_unet_encoder _ _ _ _ _ _ _ _ _ _ E6); lia).
  assert (E8 : sh (UNET.en_8 L) = Some (512, a, b))
    by (refine (shape_unet_encoder _ _ _ _ _ _ _ _ _ _ E7); lia).
  assert (D1 : sh (UNET.de_1 L) = Some (1024, dbl 1 a, dbl 1 b))
    by (refine (shape_unet_decoder _ _ _ _ _ _ _ _ _ _ _ _ _ E8 E7); lia).
  assert (D2 : sh (UNET.de_2 L) = Some (1024, dbl 2 a, dbl 2 b))
    by (refine (shape_unet_decoder _ _ _ _ _ _ _ _ _ _ _ _ _ D1 E6); lia).
  assert (D3 : sh (UNET.de_3 L) = Some (2048, dbl 3 a, dbl 3 b))
    by (refine (shape_unet_decoder _ _ _ _ _ _ _ _ _ _ _ _ _ D2 E5); lia).
  assert (D4 : sh (UNET.de_4 L) = Some (1024, dbl 4 a, dbl 4 b))
    by (refine (shape_unet_decoder _ _ _ _ _ _ _ _ _ _ _ _ _ D3 E4); lia).
  assert (D5 : sh (UNET.de_5 L) = Some (512, dbl 5 a, dbl 5 b))
    by (refine (shape_unet_decoder _ _ _ _ _ _ _ _ _ _ _ _ _ D4 E3); lia).
  assert (D6 : sh (UNET.de_6 L) = Some (256, dbl 6 a, dbl 6 b))
    by (refine (shape_unet_decoder _ _ _ _ _ _ _ _ _ _ _ _ _ D5 E2); lia).
  assert (D7 : sh (UNET.de_7 L) = Some (128, dbl 7 a, dbl 7 b))
    by (refine (shape_unet_decoder _ _ _ _ _ _ _ _ _ _ _ _ _ D6 E1); lia).
  refine (shape_unet_last _ _ _ _ _ _ _ _ D7); lia.
Qed.

Lemma multiple_128_dbl (m : Z) : (128 | m) -> exists a, m = dbl 7 a.
Proof.
  intros [a ->]. exists a. rewrite dbl_pow2.
  change (Z.of_nat 7) with 7. lia.
Qed.

(** X3: in the channels-first layout, on an input of positive height and
    width, [UNETGenerator] can be built (its output has a shape) exactly
    when the input has a positive number of channels,
    [num_output_channels] is positive, and height and width, halved
    rounding up, are multiples of 128. *)
Theorem X3_unet_buildable (c h w num_output_channels : Z)
  (Hh : 0 < h) (Hw : 0 < w) :
  (exists s,
      shape_of channels_first
        (UNET.de_8 (UNET.body (c, h, w) num_output_channels)) = Some s)
  <-> 0 < c /\ 0 < num_output_channels
      /\ (128 | ceil_div h 2) /\ (128 | ceil_div w 2).
Proof.
  split.
  - intros [s Hs]. exact (proj2 (UNET_built_inv c h w _ s Hs)).
  - intros (Hc & Hn & Dh & Dw).
    destruct (multiple_128_dbl _ Dh) as [a Ha].
    destruct (multiple_128_dbl _ Dw) as [b Hb].
    eexists. exact (UNET_built c h w _ a b Hc Hn Ha Hb).
Qed.

Lemma X3_unet_buildable_witness :
  0 < 255 /\ 0 < 512
  /\ ((exists s,
          shape_of channels_first (UNET.de_8 (UNET.body (3, 255, 512) 3))
          = Some s)
      <-> 0 < 3 /\ 0 < 3
          /\ (128 | ceil_div 255 2) /\ (128 | ceil_div 512 2)).
Proof.
  assert (H1 : 0 < 255) by lia. assert (H2 : 0 < 512) by lia.
  split; [exact H1|]. split; [exact H2|].
  exact (X3_unet_buildable 3 255 512 3 H1 H2).
Defined.

(** X4: whenever [UNETGenerator] can be built (channels first), its output
    has [num_output_channels] channels and the input's height and width
    rounded up to the next even number; it has the size of the input
    exactly when height and width are multiples of 256. *)
Theorem X4_unet_output_size (c h w num_output_channels : Z) (s : shape)
  (Hs : shape_of channels_first
          (UNET.de_8 (UNET.body (c, h, w) num_output_channels)) = Some s) :
  s = (num_output_channels, 2 * ceil_div h 2, 2 * ceil_div w 2)
  /\ h <= height channels_first s <= h + 1
  /\ w <= width channels_first s <= w + 1
  /\ (height channels_first s = h /\ width channels_first s = w
      <-> (256 | h) /\ (256 | w)).
Proof.
  destruct (UNET_built_inv c h w _ s Hs) as (-> & _ & _ & [a Ha] & [b Hb]).
  cbn [height width]. split; [reflexivity|].
  unfold ceil_div in *.
  split; [div_lia|]. split; [div_lia|]. split.
  - intros [Eh Ew]. split; [exists a | exists b]; lia.
  - intros [[k ->] [l ->]]. split; div_lia.
Qed.

Lemma X4_unet_output_size_witness :
  shape_of channels_first (UNET.de_8 (UNET.body (3, 255, 512) 3))
  = Some (3, 256, 512)
  /\ (3, 256, 512) = (3, 2 * ceil_div 255 2, 2 * ceil_div 512 2)
  /\ 255 <= height channels_first (3, 256, 512) <= 255 + 1
  /\ 512 <= width channels_first (3, 256, 512) <= 512 + 1
  /\ (height channels_first (3, 256, 512) = 255
      /\ width channels_first (3, 256, 512) = 512
      <-> (256 | 255) /\ (256 | 512)).
Proof.
  assert (H : shape_of channels_first (UNET.de_8 (UNET.body (3, 255, 512) 3))
              = Some (3, 256, 512)) by reflexivity.
  split; [exact H|].
  exact (X4_unet_output_size 3 255 512 3 (3, 256, 512) H).
Defined.

(** ** The bottleneck *)

(** X5: on every input with channels, the encoder of each generator ends
    in a tensor of 512 channels whose height and width are the input's
    divided by 256, rounding up; for [UNETGenerator] this holds on inputs
    of any positive height and width, multiples of 256 or not. *)
Theorem X5_bottleneck_shape (df : data_format) (x : tensor) (s : shape)
  (c h w num_output_channels : Z)
  (Hs : shape_of df x = Some s) (Hsc : 0 < channels df s)
  (Hc : 0 < c) (Hn : 0 < num_output_channels) (Hh : 0 < h) (Hw : 0 < w) :
  shape_of df (AE.encoder_of x)
  = Some (mk_shape df 512 (ceil_div (height df s) 256)
            (ceil_div (width df s) 256))
  /\ shape_of channels_first
       (UNET.en_8 (UNET.body (c, h, w) num_output_channels))
     = Some (512, ceil_div h 256, ceil_div w 256).
Proof.
  split.
  - unfold AE.encoder_of.
    rewrite (encoder_loop_shape df AE.encoder_filter_sizes x s Hs Hsc
               encoder_filter_sizes_positive).
    change (List.length AE.encoder_filter_sizes) with 8%nat.
    rewrite !ceil_div_2_eight_times. reflexivity.
  - set (L := UNET.body (c, h, w) num_output_channels).
    pose proof (UNET_encoder_shapes_any c h w num_output_channels Hc) as Ee.
    cbv beta zeta in Ee. fold L in Ee.
    stage_shape E8 Ee 8%nat (UNET.en_8 L).
    rewrite E8, !ceil_div_2_eight_times. reflexivity.
Qed.

Lemma X5_bottleneck_shape_witness :
  shape_of channels_first sample_input = Some (3, 256, 256)
  /\ 0 < channels channels_first (3, 256, 256)
  /\ 0 < 3 /\ 0 < 200 /\ 0 < 300
  /\ shape_of channels_first (AE.encoder_of sample_input)
     = Some (mk_shape channels_first 512 (ceil_div 256 256)
               (ceil_div 256 256))
  /\ shape_of channels_first (UNET.en_8 (UNET.body (3, 200, 300) 3))
     = Some (512, ceil_div 200 256, ceil_div 300 256).
Proof.
  assert (H3 : 0 < 3) by lia.
  assert (H200 : 0 < 200) by lia. assert (H300 : 0 < 300) by lia.
  split; [reflexivity|]. split; [exact H3|]. split; [exact H3|].
  split; [exact H200|]. split; [exact H300|].
  exact (X5_bottleneck_shape channels_first sample_input (3, 256, 256)
           3 200 300 3 eq_refl H3 H3 H3 H200 H300).
Defined.

(** ** The graphs are built on the given input only *)

Lemma leaves_call1 (l : layer) (t : tensor) : leaves (l @ t) = leaves t.
Proof. cbn [call1 leaves flat_map]. apply app_nil_r. Qed.

Lemma leaves_for_each {A} (body : A -> tensor -> tensor)
  (Hbody : forall a t, leaves (body a t) = leaves t) (xs : list A) :
  forall t, leaves (AE.for_each body xs t) = leaves t.
Proof.
  unfold AE.for_each.
  induction xs as [|a xs IH]; intros t; [reflexivity|].
  cbn [fold_left]. now rewrite IH, Hbody.
Qed.

Lemma leaves_encoder_block (stride f : Z) (t : tensor) :
  leaves (AE.encoder_block stride f t) = leaves t.
Proof.
  unfold AE.encoder_block.
  destruct (negb (f =? 64)); now rewrite !leaves_call1.
Qed.

Lemma leaves_decoder_block (f : Z) (t : tensor) :
  leaves (AE.decoder_block f t) = leaves t.
Proof. unfold AE.decoder_block. now rewrite !leaves_call1. Qed.

(** X6: neither generator brings in a placeholder of its own beyond the
    given input: the output of [make_generator_ae] is computed from the
    placeholders of [input_layer] and no others, and every placeholder
    under the output of [UNETGenerator] is the model's one declared input,
    [Input(shape=input_img_dim, name="unet_input")], which is used 8 times
    (by the first encoder stage through the main path, and through the 7
    skip connections). *)
Theorem X6_graph_inputs (x : tensor) (num_output_filters : Z)
  (input_img_dim : Z * Z * Z) (num_output_channels : Z) :
  leaves (AE.make_generator_ae x num_output_filters) = leaves x
  /\ let M := UNET.UNETGenerator input_img_dim num_output_channels in
     model_input M = [Input input_img_dim "unet_input"]
     /\ model_name M = "unet_generator"
     /\ flat_map leaves (model_output M)
        = repeat (Input input_img_dim "unet_input") 8.
Proof.
  split.
  - rewrite make_generator_ae_eq, !leaves_call1.
    unfold AE.decoder_of, AE.encoder_of.
    rewrite (leaves_for_each _ leaves_decoder_block).
    apply (leaves_for_each _ (leaves_encoder_block 2)).
  - repeat split.
Qed.

(** ** Normalization layers and activations *)

(** X7: every normalization layer of [UNETGenerator] has a name, and the
    14 names are pairwise distinct; [make_generator_ae] names none of its
    15 normalization layers. *)
Theorem X7_normalization_names (x : tensor) (num_output_filters : Z)
  (input_img_dim : Z * Z * Z) (num_output_channels : Z) :
  let ae := added x (AE.make_generator_ae x num_output_filters) in
  let unet :=
    path (UNET.de_8 (UNET.body input_img_dim num_output_channels)) in
  NoDup (bn_names unet)
  /\ List.length (bn_names unet) = count is_norm unet
  /\ count is_norm unet = 14%nat
  /\ bn_names ae = []
  /\ count is_norm ae = 15%nat.
Proof.
  intros ae unet.
  assert (Eae : ae = flat_map (encoder_block_steps 2) AE.encoder_filter_sizes
                     ++ flat_map decoder_block_steps AE.decoder_filter_sizes
                     ++ [(Conv2D num_output_filters (4, 4) same
                            default_strides, []);
                         (Activation tanh, [])]).
  { subst ae. apply added_ext.
    rewrite make_generator_ae_eq. unfold AE.decoder_of, AE.encoder_of.
    rewrite !path_call1, (path_for_each _ _ path_decoder_block),
      (path_for_each _ _ (path_encoder_block 2)).
    now rewrite <- !app_assoc. }
  rewrite Eae. split; [|repeat split].
  repeat (constructor; [cbn; intuition discriminate|]). constructor.
Qed.

(** X8: [make_generator_ae] normalizes along the last axis, which holds the
    channels in the channels-last layout, while [UNETGenerator] normalizes
    along axis 1, which holds them in the channels-first layout and is the
    axis its concatenations join. *)
Theorem X8_normalization_axes (x : tensor) (num_output_filters : Z)
  (input_img_dim : Z * Z * Z) (num_output_channels : Z) :
  let ae := added x (AE.make_generator_ae x num_output_filters) in
  let unet :=
    path (UNET.de_8 (UNET.body input_img_dim num_output_channels)) in
  Forall (fun a => normalize_axis a = channel_axis channels_last)
    (bn_axes ae)
  /\ Forall (fun a => normalize_axis a = channel_axis channels_first)
       (bn_axes unet)
  /\ Forall (fun l => match l with
                      | Concatenate a =>
                          normalize_axis a = channel_axis channels_first
                      | _ => True
                      end) (layers unet)
  /\ (List.length (bn_axes ae), List.length (bn_axes unet),
      count is_concat unet) = (15, 14, 7)%nat.
Proof.
  intros ae unet.
  assert (Eae : ae = flat_map (encoder_block_steps 2) AE.encoder_filter_sizes
                     ++ flat_map decoder_block_steps AE.decoder_filter_sizes
                     ++ [(Conv2D num_output_filters (4, 4) same
                            default_strides, []);
                         (Activation tanh, [])]).
  { subst ae. apply added_ext.
    rewrite make_generator_ae_eq. unfold AE.decoder_of, AE.encoder_of.
    rewrite !path_call1, (path_for_each _ _ path_decoder_block),
      (path_for_each _ _ (path_encoder_block 2)).
    now rewrite <- !app_assoc. }
  rewrite Eae. repeat split; repeat constructor.
Qed.


(** ** Mirrored filter counts *)

(** X10: the decoder mirrors the encoder.  In [make_generator_ae] the
    filter counts of the 8 decoder blocks are those of the 8 encoder blocks
    in reverse order.  In [UNETGenerator] the convolution of decoder stage
    [i], for [i] from 1 to 7, has as many filters as that of encoder stage
    [8 - i], the stage it is concatenated with, so each concatenation
    joins two tensors of equal channel count. *)
Theorem X10_mirrored_filters (x : tensor) (input_img_dim : Z * Z * Z)
  (num_output_channels : Z) (i : nat) (Hi : (1 <= i <= 7)%nat) :
  let L := UNET.body input_img_dim num_output_channels in
  stage_filters (AEStages.decoder_steps x)
  = rev (stage_filters (AEStages.encoder_steps x))
  /\ exists d e,
      stage (UNETStages.decoder_steps L) i = Some d
      /\ stage (UNETStages.encoder_steps L) (8 - i) = Some e
      /\ conv_filters d = conv_filters e.
Proof.
  intros L. rewrite AE_encoder_steps, AE_decoder_steps.
  split; [reflexivity|].
  destruct Hi as [Hlo Hhi].
  destruct i as [|[|[|[|[|[|[|[|i]]]]]]]]; try lia;
    do 2 eexists; (split; [reflexivity|]); split; reflexivity.
Qed.

Lemma X10_mirrored_filters_witness :
  (1 <= 3 <= 7)%nat
  /\ let L := UNET.body (3, 256, 256) 3 in
     stage_filters (AEStages.decoder_steps sample_input)
     = rev (stage_filters (AEStages.encoder_steps sample_input))
     /\ exists d e,
         stage (UNETStages.decoder_steps L) 3 = Some d
         /\ stage (UNETStages.encoder_steps L) (8 - 3) = Some e
         /\ conv_filters d = conv_filters e.
Proof.
  assert (H3 : (1 <= 3 <= 7)%nat) by lia.
  split; [exact H3|].
  exact (X10_mirrored_filters sample_input (3, 256, 256) 3 3 H3).
Defined.

(** ** Feeding make_generator_ae its own output *)

(** X11: for an input with channels and positive numbers of output
    filters, [make_generator_ae] applied to its own output keeps height and
    width: the first pass rounds them up to multiples of 256, which the
    second pass leaves as they are, and the result has the channels the
    second call asks for. *)
Theorem X11_ae_twice (df : data_format) (x : tensor) (s : shape)
  (n m : Z) (Hs : shape_of df x = Some s)
  (Hsc : 0 < channels df s) (Hn : 0 < n) (Hm : 0 < m) :
  exists s1 s2,
    shape_of df (AE.make_generator_ae x n) = Some s1
    /\ shape_of df (AE.make_generator_ae (AE.make_generator_ae x n) m)
       = Some s2
    /\ height df s2 = height df s1
    /\ width df s2 = width df s1
    /\ channels df s2 = m.
Proof.
  pose proof (make_generator_ae_shape_positive df x s n Hs Hsc Hn) as E1.
  assert (Hc1 : 0 < channels df
                      (mk_shape df n (256 * ceil_div (height df s) 256)
                         (256 * ceil_div (width df s) 256)))
    by (rewrite channels_mk; exact Hn).
  pose proof (make_generator_ae_shape_positive df _ _ m E1 Hc1 Hm) as E2.
  do 2 eexists. split; [exact E1|]. split; [exact E2|].
  rewrite !height_mk, !width_mk, !channels_mk.
  repeat split; unfold ceil_div; div_lia.
Qed.

Lemma X11_ae_twice_witness :
  shape_of channels_first (Input (3, 100, 300) "x") = Some (3, 100, 300)
  /\ 0 < channels channels_first (3, 100, 300) /\ 0 < 3 /\ 0 < 2
  /\ exists s1 s2,
      shape_of channels_first
        (AE.make_generator_ae (Input (3, 100, 300) "x") 3) = Some s1
      /\ shape_of channels_first
           (AE.make_generator_ae
              (AE.make_generator_ae (Input (3, 100, 300) "x") 3) 2)
         = Some s2
      /\ height channels_first s2 = height channels_first s1
      /\ width channels_first s2 = width channels_first s1
      /\ channels channels_first s2 = 2.
Proof.
  assert (H3 : 0 < 3) by lia. assert (H2 : 0 < 2) by lia.
  split; [reflexivity|]. split; [exact H3|]. split; [exact H3|].
  split; [exact H2|].
  exact (X11_ae_twice channels_first (Input (3, 100, 300) "x")
           (3, 100, 300) 3 2 eq_refl H3 H3 H2).
Defined.

(** ** UNETGenerator in the channels-last layout *)

Section UNETChannelsLast.
Let shl := shape_of channels_last.

Lemma shape_unet_first_encoder_last (t : tensor) (c h w f : Z) (alpha : Q) :
  0 < c -> 0 < f ->
  shl t = Some (2 * h, 2 * w, c) ->
  shl (LeakyReLU alpha @ Conv2D f (4, 4) same (2, 2) @ t) = Some (h, w, f).
Proof.
  unfold shl. intros Hc Hf E. rewrite !shape_of_call1, E. cbn [bind].
  rewrite out_conv by (cbn [channels]; lia).
  cbn [bind layer_output_shape mk_shape height width].
  now rewrite !conv_same_stride_2.
Qed.

Lemma shape_unet_encoder_last (t : tensor) (c h w f : Z) (alpha : Q)
  (name : option string) (axis : Z) :
  0 < c -> 0 < f ->
  shl t = Some (2 * h, 2 * w, c) ->
  shl (LeakyReLU alpha @ BatchNormalization name axis
       @ Conv2D f (4, 4) same (2, 2) @ t) = Some (h, w, f).
Proof.
  unfold shl. intros Hc Hf E. rewrite !shape_of_call1, E. cbn [bind].
  rewrite out_conv by (cbn [channels]; lia).
  cbn [bind layer_output_shape mk_shape height width].
  now rewrite !conv_same_stride_2.
Qed.

(** With channels last, axis 1 is the height: a decoder stage stacks the
    skip tensor under its own output, and needs the two to agree in width
    and in channels. *)
Lemma shape_unet_decoder_last (t skip : tensor) (c h w h' f : Z) (rate : Q)
  (name : option string) (axis : Z) (a : activation) :
  0 < c -> 0 < f ->
  shl t = Some (h, w, c) ->
  shl skip = Some (h', 2 * w, f) ->
  shl (Activation a
       @ Call (Concatenate 1)
           [Dropout rate @ BatchNormalization name axis
            @ Conv2D f (4, 4) same default_strides
            @ UpSampling2D (2, 2) @ t;
            skip])
  = Some (2 * h + h', 2 * w, f).
Proof.
  unfold shl. intros Hc Hf E E'.
  rewrite shape_of_call1, shape_of_call_skip, !shape_of_call1, E, E'.
  cbn [bind layer_output_shape mk_shape height width channels
       default_strides fold_left].
  rewrite conv_kernel_ok_true by lia.
  cbn [bind layer_output_shape mk_shape height width channels fold_left].
  rewrite !conv_same_stride_1. unfold concat_shapes.
  change (1 <? 0) with false. cbv iota. change (1 =? 1) with true. cbv iota.
  now rewrite !Z.eqb_refl.
Qed.

Lemma shape_unet_last_last (t : tensor) (c h w f : Z) (a : activation) :
  0 < c -> 0 < f ->
  shl t = Some (h, w, c) ->
  shl (Activation a @ Conv2D f (4, 4) same default_strides
       @ UpSampling2D (2, 2) @ t)
  = Some (2 * h, 2 * w, f).
Proof.
  unfold shl. intros Hc Hf E. rewrite !shape_of_call1, E.
  cbn [bind layer_output_shape mk_shape height width channels
       default_strides].
  rewrite conv_kernel_ok_true by lia.
  cbn [bind layer_output_shape mk_shape height width channels].
  now rewrite !conv_same_stride_1.
Qed.

Lemma UNET_channels_last_shape (c kh kw n : Z) :
  0 < c -> 0 < n ->
  shl (UNET.de_8 (UNET.body (dbl 8 kh, dbl 8 kw, c) n))
  = Some (8 * dbl 8 kh, dbl 8 kw, n).
Proof.
  intros Hc Hn.
  assert (P64 : 0 < 64) by lia. assert (P128 : 0 < 128) by lia.
  assert (P256 : 0 < 256) by lia. assert (P512 : 0 < 512) by lia.
  assert (P1024 : 0 < 1024) by lia.
  set (L := UNET.body (dbl 8 kh, dbl 8 kw, c) n).
  assert (E0 : shl (UNET.input_layer L) = Some (dbl 8 kh, dbl 8 kw, c))
    by reflexivity.
  pose proof (shape_unet_first_encoder_last _ _ _ _ 64 0.2%Q Hc P64 E0)
    as E1.
  pose proof (shape_unet_encoder_last _ _ _ _ 128 0.2%Q
                (Some "gen_en_bn_2") 1 P64 P128 E1) as E2.
  pose proof (shape_unet_encoder_last _ _ _ _ 256 0.2%Q
                (Some "gen_en_bn_3") 1 P128 P256 E2) as E3.
  pose proof (shape_unet_encoder_last _ _ _ _ 512 0.2%Q
                (Some "gen_en_bn_4") 1 P256 P512 E3) as E4.
  pose proof (shape_unet_encoder_last _ _ _ _ 1024 0.2%Q
                (Some "gen_en_bn_5") 1 P512 P1024 E4) as E5.
  pose proof (shape_unet_encoder_last _ _ _ _ 512 0.2%Q
                (Some "gen_en_bn_6") 1 P1024 P512 E5) as E6.
  pose proof (shape_unet_encoder_last _ _ _ _ 512 0.2%Q
                (Some "gen_en_bn_7") 1 P512 P512 E6) as E7.
  pose proof (shape_unet_encoder_last _ _ _ _ 512 0.2%Q
                (Some "gen_en_bn_8") 1 P512 P512 E7) as E8.
  pose proof (shape_unet_decoder_last _ _ _ _ _ _ _ 0.5%Q
                (Some "gen_de_bn_1") 1 relu P512 P512 E8 E7) as D1.
  pose proof (shape_unet_decoder_last _ _ _ _ _ _ _ 0.5%Q
                (Some "gen_de_bn_2") 1 relu P512 P512 D1 E6) as D2.
  pose proof (shape_unet_decoder_last _ _ _ _ _ _ _ 0.5%Q
                (Some "gen_de_bn_3") 1 relu P512 P1024 D2 E5) as D3.
  pose proof (shape_unet_decoder_last _ _ _ _ _ _ _ 0.5%Q
                (Some "gen_de_bn_4") 1 relu P1024 P512 D3 E4) as D4.
  pose proof (shape_unet_decoder_last _ _ _ _ _ _ _ 0.5%Q
                (Some "gen_de_bn_5") 1 relu P512 P256 D4 E3) as D5.
  pose proof (shape_unet_decoder_last _ _ _ _ _ _ _ 0.5%Q
                (Some "gen_de_bn_6") 1 relu P256 P128 D5 E2) as D6.
  pose proof (shape_unet_decoder_last _ _ _ _ _ _ _ 0.5%Q
                (Some "gen_de_bn_7") 1 relu P128 P64 D6 E1) as D7.
  pose proof (shape_unet_last_last _ _ _ _ n tanh P64 Hn D7) as D8.
  etransitivity; [exact D8|].
  f_equal. f_equal. f_equal. cbv [dbl Nat.iter nat_rect]. lia.
Qed.

End UNETChannelsLast.

(** X12: in the channels-last layout, where axis 1 is the height, on an
    input with channels whose height and width are positive multiples of
    2^8 and for a positive [num_output_channels], [UNETGenerator] can still
    be built, but its 7 concatenations stack the skip tensors along the
    height: the output has the input's width, [num_output_channels]
    channels, and 8 times the input's height. *)
Theorem X12_unet_channels_last (h w c num_output_channels : Z)
  (Hc : 0 < c) (Hn : 0 < num_output_channels)
  (Hhp : 0 < h) (Hwp : 0 < w)
  (Hh : (2 ^ 8 | h)) (Hw : (2 ^ 8 | w)) :
  shape_of channels_last
    (UNET.de_8 (UNET.body (h, w, c) num_output_channels))
  = Some (mk_shape channels_last num_output_channels (8 * h) w).
Proof.
  destruct (dbl_of_multiple h Hh) as [kh ->].
  destruct (dbl_of_multiple w Hw) as [kw ->].
  apply UNET_channels_last_shape; assumption.
Qed.

Lemma X12_unet_channels_last_witness :
  0 < 3 /\ 0 < 256 /\ 0 < 512 /\ (2 ^ 8 | 256) /\ (2 ^ 8 | 512)
  /\ shape_of channels_last (UNET.de_8 (UNET.body (256, 512, 3) 3))
     = Some (mk_shape channels_last 3 (8 * 256) 512).
Proof.
  assert (H256 : (2 ^ 8 | 256)) by (exists 1; reflexivity).
  assert (H512 : (2 ^ 8 | 512)) by (exists 2; reflexivity).
  assert (H3 : 0 < 3) by lia.
  assert (P256 : 0 < 256) by lia. assert (P512 : 0 < 512) by lia.
  split; [exact H3|]. split; [exact P256|]. split; [exact P512|].
  split; [exact H256|]. split; [exact H512|].
  exact (X12_unet_channels_last 256 512 3 3 H3 H3 P256 P512 H256 H512).
Defined.
